(** * OpenAI Vision API demo (app.py): request assembly and result records

    A shallow embedding of [src/app.py]: the helper
    [encode_image_to_base64] and the three analysis operations
    [analyze_image_from_url], [analyze_image_from_file] and
    [analyze_multiple_images].

    The operations talk to five things outside the program: the process
    environment ([os.getenv]), the client library ([OpenAI(...)]), the
    console ([print]), the file system ([open]/[read]) and the remote
    service ([client.chat.completions.create]).  They are gathered in a
    [world] record.  Every file read and every remote call is logged in a
    trace, so that statements about what I/O an operation attempts can be
    made.  Python exceptions are an explicit [Raise] outcome: the
    constructor of the client and every [print] either return or raise, as
    the world decides.  What is printed is not kept, only whether printing
    it raised.  The default values of the keyword parameters ([prompt],
    [detail = "auto"]) are left to the caller: every operation takes all
    its arguments. *)

From Stdlib Require Import ZArith NArith Ascii String List Lia.
From Stdlib.Strings Require Import Byte.
From stdpp Require Import base option list gmap strings.

Local Open Scope Z_scope.

(* ===================================================================== *)
(** ** Python strings *)
(* ===================================================================== *)

(** A Python [str] is modelled as a Rocq [string]: one [ascii] per code
    point, for the code points U+0000 .. U+00FF. *)

Module PyStr.

(** [str.lower] on one code point below U+0100: A-Z and the Latin-1
    capitals U+00C0..U+00DE (without the multiplication sign U+00D7)
    move up by 32, every other code point is kept. *)
Definition lower_char (c : ascii) : ascii :=
  let n := N_of_ascii c in
  if ((65 <=? n) && (n <=? 90))%N
     || ((192 <=? n) && (n <=? 222) && negb (n =? 215))%N
  then ascii_of_N (n + 32) else c.

Fixpoint lower (s : string) : string :=
  match s with
  | EmptyString => EmptyString
  | String c r => String (lower_char c) (lower r)
  end.

(** [s.startswith(p)] *)
Definition startswith (s p : string) : bool := String.prefix p s.

(** [s.rfind(c)] for a one-character needle: the highest index of [c] in
    [s], or -1. *)
Fixpoint rfind (c : ascii) (s : string) : Z :=
  match s with
  | EmptyString => -1
  | String a r =>
      let j := rfind c r in
      if 0 <=? j then 1 + j
      else if Ascii.eqb a c then 0 else -1
  end.

(** [s[i:]] for [0 <= i]. *)
Fixpoint drop (i : nat) (s : string) : string :=
  match i, s with
  | O, _ => s
  | S _, EmptyString => EmptyString
  | S k, String _ r => drop k r
  end.

(** [s.split(sep)] for a one-character separator. *)
Fixpoint split (sep : ascii) (s : string) : list string :=
  match s with
  | EmptyString => [EmptyString]
  | String c r =>
      if Ascii.eqb c sep then EmptyString :: split sep r
      else match split sep r with
           | h :: t => String c h :: t
           | [] => [String c EmptyString]
           end
  end.

Definition len (s : string) : Z := Z.of_nat (String.length s).

(** [c in s] for a one-character [c]. *)
Fixpoint contains (c : ascii) (s : string) : bool :=
  match s with
  | EmptyString => false
  | String a r => Ascii.eqb a c || contains c r
  end.

End PyStr.

(* ===================================================================== *)
(** ** pathlib: [Path(p).suffix] (POSIX flavour) *)
(* ===================================================================== *)

Module PurePath.

(** The parts of a path given as one string: the components between
    the separators, without the empty ones and without ["."]. *)
Definition keep_part (x : string) : bool :=
  negb (String.eqb x "") && negb (String.eqb x ".").

Definition parts (p : string) : list string :=
  List.filter keep_part (PyStr.split "/" p).

(** [Path(p).name]: the final component, [''] when there is none. *)
Definition name (p : string) : string := List.last (parts p) EmptyString.

(** [Path(p).suffix], as CPython's pathlib defines it up to 3.12:
<<
    name = self.name
    i = name.rfind('.')
    if 0 < i < len(name) - 1: return name[i:]
    else: return ''
>> *)
Definition suffix (p : string) : string :=
  let name := name p in
  let i := PyStr.rfind "." name in
  if (0 <? i) && (i <? PyStr.len name - 1) then PyStr.drop (Z.to_nat i) name
  else EmptyString.

End PurePath.

(* ===================================================================== *)
(** ** base64.b64encode *)
(* ===================================================================== *)

Module Base64.

Definition alphabet : string :=
  "ABCDEFGHIJKLMNOPQRSTUVWXYZabcdefghijklmnopqrstuvwxyz0123456789+/".

(** The character of a six-bit group. *)
Definition digit (n : N) : ascii :=
  match String.get (N.to_nat n) alphabet with
  | Some c => c
  | None => "="%char
  end.

Definition pad : ascii := "="%char.

(** The 24-bit group of three octets. *)
Definition group (a b c : byte) : N :=
  (N.shiftl (Byte.to_N a) 16 + N.shiftl (Byte.to_N b) 8 + Byte.to_N c)%N.

Definition sextet (g : N) (k : N) : N := N.land (N.shiftr g (6 * k)) 63.

Definition x00 : byte := Byte.x00.

(** Standard alphabet, ['='] padding, no line breaks. *)
Fixpoint b64encode (s : list byte) : string :=
  match s with
  | [] => EmptyString
  | [a] =>
      let g := group a x00 x00 in
      String (digit (sextet g 3)) (String (digit (sextet g 2))
        (String pad (String pad EmptyString)))
  | [a; b] =>
      let g := group a b x00 in
      String (digit (sextet g 3)) (String (digit (sextet g 2))
        (String (digit (sextet g 1)) (String pad EmptyString)))
  | a :: b :: c :: r =>
      let g := group a b c in
      String (digit (sextet g 3)) (String (digit (sextet g 2))
        (String (digit (sextet g 1)) (String (digit (sextet g 0))
          (b64encode r))))
  end.

(** The value of a digit of the standard alphabet. *)
Fixpoint index_of (c : ascii) (s : string) : option N :=
  match s with
  | EmptyString => None
  | String a r =>
      if Ascii.eqb a c then Some 0%N
      else match index_of c r with
           | Some i => Some (N.succ i)
           | None => None
           end
  end.

Definition value (c : ascii) : option N := index_of c alphabet.

Definition octet (g : N) (k : N) : byte :=
  match Byte.of_N (N.land (N.shiftr g (8 * k)) 255) with
  | Some b => b
  | None => x00
  end.

(** Strict decoding of padded standard base64 (what [b64decode] with
    [validate=True] accepts). *)
Fixpoint b64decode (s : string) : option (list byte) :=
  match s with
  | EmptyString => Some []
  | String c0 (String c1 (String c2 (String c3 r))) =>
      match value c0, value c1 with
      | Some v0, Some v1 =>
          if Ascii.eqb c2 pad then
            if Ascii.eqb c3 pad then
              match r with
              | EmptyString =>
                  let g := (N.shiftl v0 18 + N.shiftl v1 12)%N in
                  Some [octet g 2]
              | _ => None
              end
            else None
          else
            match value c2 with
            | Some v2 =>
                if Ascii.eqb c3 pad then
                  match r with
                  | EmptyString =>
                      let g := (N.shiftl v0 18 + N.shiftl v1 12
                                + N.shiftl v2 6)%N in
                      Some [octet g 2; octet g 1]
                  | _ => None
                  end
                else
                  match value c3, b64decode r with
                  | Some v3, Some bs =>
                      let g := (N.shiftl v0 18 + N.shiftl v1 12
                                + N.shiftl v2 6 + v3)%N in
                      Some (octet g 2 :: octet g 1 :: octet g 0 :: bs)
                  | _, _ => None
                  end
            | None => None
            end
      | _, _ => None
      end
  | _ => None
  end.

End Base64.

(* ===================================================================== *)
(** ** Data model *)
(* ===================================================================== *)

(** Exceptions: the class decides which [except] clause takes it, and
    [exn_msg] is what [str(e)] gives. *)
Inductive exn_class :=
| ValueError
| FileNotFoundError
| IndexError
| AttributeError
| PyException                      (* a bare [Exception(...)] *)
| OtherError (cls : string).       (* any other subclass of [Exception] *)

Record exn := mk_exn { exn_cls : exn_class; exn_msg : string }.

Inductive outcome (A : Type) :=
| Return (a : A)
| Raise (e : exn).
Arguments Return {A} a.
Arguments Raise {A} e.

(** The values stored in a result dict. *)
Inductive pyval :=
| PyNone
| PyBool (b : bool)
| PyInt (n : Z)
| PyStr (s : string).

(** One element of the ["content"] list of the request: a dict tagged by
    its ["type"] key, either [{"type": "text", "text": t}] or
    [{"type": "image_url", "image_url": d}], where [d] is a dict with the
    key ["url"] and, in some requests, the key ["detail"]. *)
Inductive content_block :=
| Text (text : string)
| ImageUrl (image_url : gmap string string).

Record message := { role : string; content : list content_block }.

(** The keyword arguments of [client.chat.completions.create]. *)
Record request := {
  model : string;
  messages : list message;
  max_tokens : Z
}.

(** The response object, as far as the program reads it. *)
Record choice := {
  index : Z;
  message_role : string;
  message_content : option string;     (* [None] is possible *)
  finish_reason : string
}.

Record completion_usage := {
  prompt_tokens : Z;
  completion_tokens : Z;
  total_tokens : Z
}.

Record response := {
  response_id : string;
  response_model : string;
  created : Z;
  choices : list choice;
  usage : option completion_usage      (* [None] is possible *)
}.

(** What the program prints, one constructor per [print] statement (the
    three rules of a dump are told apart by their line).  The text is not
    built: a line is named by the statement and by the values formatted
    into it, which is all that the console's answer can depend on. *)
Inductive printed :=
| AnalyzingUrl                           (* line 52 *)
| AnalyzingFile (image_path : string)    (* line 146 *)
| AnalyzingMany (n : nat)                (* line 253 *)
| PromptLine (prompt : string)           (* lines 53, 147, 254 *)
| DetailLine (detail : string)           (* lines 54, 148 *)
| Rule (line : Z)                        (* lines 80, 82, 107, 188, 190, 215 *)
| RawHeader                              (* lines 81, 189 *)
| RawJson (r : response)                 (* lines 106, 214 *)
| AnalysisComplete                       (* line 297; begins with U+2713 *)
| ErrorAnalyzingImage (msg : string)     (* lines 119, 227; begins with U+2717 *)
| ErrorAnalyzingImages (msg : string).   (* line 306; begins with U+2717 *)

(** What is outside the program. *)
Record world := {
  (** [os.getenv("OPENAI_API_KEY")] *)
  getenv_OPENAI_API_KEY : option string;
  (** [OpenAI(api_key=api_key)]: returns the client, or raises *)
  new_client : option string -> outcome unit;
  (** [print(...)]: returns, or raises (a text the stream cannot encode, a
      closed stream) *)
  console : printed -> outcome unit;
  (** [open(path, "rb")] followed by [.read()]: the whole contents, or
      the exception raised *)
  open_rb_read : string -> outcome (list byte);
  (** [client.chat.completions.create], applied to the keyword arguments *)
  chat_completions_create : request -> outcome response
}.

(** The I/O an operation attempts, oldest first. *)
Inductive event :=
| EvRead (path : string)
| EvCreate (req : request).

(* ===================================================================== *)
(** ** A monad for I/O logging and exceptions *)
(* ===================================================================== *)

Definition M (A : Type) : Type := list event -> outcome A * list event.

Definition ret {A} (a : A) : M A := fun t => (Return a, t).

Definition bind {A B} (m : M A) (k : A -> M B) : M B :=
  fun t => match m t with
           | (Return a, t') => k a t'
           | (Raise e, t') => (Raise e, t')
           end.

Definition raise {A} (e : exn) : M A := fun t => (Raise e, t).

Definition log (ev : event) : M unit := fun t => (Return tt, t ++ [ev]).

Definition lift {A} (o : outcome A) : M A := fun t => (o, t).

(** [try: body  except Exception as e: handler e] *)
Definition try_except {A} (body : M A) (handler : exn -> M A) : M A :=
  fun t => match body t with
           | (Return a, t') => (Return a, t')
           | (Raise e, t') => handler e t'
           end.

Notation "'let!' x ':=' m 'in' k" := (bind m (fun x => k))
  (at level 10, x name, m at level 100, k at level 200).

(** Running an operation from the empty trace. *)
Definition run {A} (m : M A) : outcome A * list event := m [].
Definition result_of {A} (m : M A) : outcome A := fst (run m).
Definition trace_of {A} (m : M A) : list event := snd (run m).

(* ===================================================================== *)
(** ** The program *)
(* ===================================================================== *)

Section Program.

Variable w : world.

Definition read_file (path : string) : M (list byte) :=
  let! _ := log (EvRead path) in lift (open_rb_read w path).

Definition create (req : request) : M response :=
  let! _ := log (EvCreate req) in lift (chat_completions_create w req).

(** [print(...)] *)
Definition print_ (line : printed) : M unit := lift (console w line).

(** [OpenAI(api_key=api_key)] *)
Definition OpenAI (api_key : option string) : M unit :=
  lift (new_client w api_key).

(** [not api_key] *)
Definition not_api_key (api_key : option string) : bool :=
  match api_key with
  | None => true
  | Some s => String.eqb s ""
  end.

(** [response.usage.<attr>] *)
Definition usage_attr (r : response) (attr : string)
    (proj : completion_usage -> Z) : M Z :=
  match usage r with
  | Some u => ret (proj u)
  | None =>
      raise (mk_exn AttributeError
               ("'NoneType' object has no attribute '" +:+ attr +:+ "'"))
  end.

(** [response.choices[0]] *)
Definition choices_0 (r : response) : M choice :=
  match choices r with
  | c :: _ => ret c
  | [] => raise (mk_exn IndexError "list index out of range")
  end.

Definition py_opt_str (o : option string) : pyval :=
  match o with
  | Some s => PyStr s
  | None => PyNone
  end.

(** Lines 13-29. *)
Definition encode_image_to_base64 (image_path : string) : M string :=
  try_except
    (let! data := read_file image_path in
     ret (Base64.b64encode data))
    (fun e =>
       match exn_cls e with
       | FileNotFoundError =>
           raise (mk_exn FileNotFoundError
                    ("Image file not found: " +:+ image_path))
       | _ =>
           raise (mk_exn PyException
                    ("Error encoding image: " +:+ exn_msg e))
       end).

(** The table of lines 155-161 and 270-276. *)
Definition mime_types : gmap string string :=
  {[ ".jpg" := "image/jpeg";
     ".jpeg" := "image/jpeg";
     ".png" := "image/png";
     ".gif" := "image/gif";
     ".webp" := "image/webp" ]}.

(** Lines 154-162 and 269-277: the media type chosen for a path. *)
Definition mime_type_of (image_path : string) : string :=
  let file_ext := PyStr.lower (PurePath.suffix image_path) in
  default "image/jpeg" (mime_types !! file_ext).

(** The dict [response_dict] of the single-image operations
    (lines 84-104): building it reads the three usage counters. *)
Definition response_dict (r : response) : M unit :=
  let! _ := usage_attr r "prompt_tokens" prompt_tokens in
  let! _ := usage_attr r "completion_tokens" completion_tokens in
  let! _ := usage_attr r "total_tokens" total_tokens in
  ret tt.

(** The dict returned on success by the single-image operations
    (lines 109-116 and 217-224). *)
Definition single_success (r : response) : M (gmap string pyval) :=
  let! c := choices_0 r in
  let! total := usage_attr r "total_tokens" total_tokens in
  let! prompt := usage_attr r "prompt_tokens" prompt_tokens in
  let! completion := usage_attr r "completion_tokens" completion_tokens in
  ret ({[ "success" := PyBool true;
          "analysis" := py_opt_str (message_content c);
          "model" := PyStr (response_model r);
          "tokens_used" := PyInt total;
          "prompt_tokens" := PyInt prompt;
          "completion_tokens" := PyInt completion ]} : gmap string pyval).

(** An [except Exception as e] clause: it prints its line, made from
    [str(e)], and returns the failure dict. *)
Definition failure (line : string -> printed) (e : exn)
    : M (gmap string pyval) :=
  let! _ := print_ (line (exn_msg e)) in
  ret ({[ "success" := PyBool false;
          "error" := PyStr (exn_msg e) ]} : gmap string pyval).

Definition missing_key : exn :=
  mk_exn ValueError "OPENAI_API_KEY environment variable not set".

(** Lines 32-123. *)
Definition analyze_image_from_url (image_url prompt detail : string)
    : M (gmap string pyval) :=
  let api_key := getenv_OPENAI_API_KEY w in
  if not_api_key api_key then raise missing_key
  else
    let! client := OpenAI api_key in
    try_except
      (let! _ := print_ AnalyzingUrl in
       let! _ := print_ (PromptLine prompt) in
       let! _ := print_ (DetailLine detail) in
       let! response := create
         {| model := "gpt-4o";
            messages :=
              [ {| role := "user";
                   content :=
                     [ Text prompt;
                       ImageUrl {[ "url" := image_url;
                                   "detail" := detail ]} ] |} ];
            max_tokens := 1000 |} in
       let! _ := print_ (Rule 80) in
       let! _ := print_ RawHeader in
       let! _ := print_ (Rule 82) in
       let! _ := response_dict response in
       let! _ := print_ (RawJson response) in
       let! _ := print_ (Rule 107) in
       single_success response)
      (failure ErrorAnalyzingImage).

(** Lines 126-231. *)
Definition analyze_image_from_file (image_path prompt detail : string)
    : M (gmap string pyval) :=
  let api_key := getenv_OPENAI_API_KEY w in
  if not_api_key api_key then raise missing_key
  else
    let! client := OpenAI api_key in
    try_except
      (let! _ := print_ (AnalyzingFile image_path) in
       let! _ := print_ (PromptLine prompt) in
       let! _ := print_ (DetailLine detail) in
       let! base64_image := encode_image_to_base64 image_path in
       let mime_type := mime_type_of image_path in
       let! response := create
         {| model := "gpt-4o";
            messages :=
              [ {| role := "user";
                   content :=
                     [ Text prompt;
                       ImageUrl
                         {[ "url" := "data:" +:+ mime_type +:+ ";base64,"
                                     +:+ base64_image;
                            "detail" := detail ]} ] |} ];
            max_tokens := 1000 |} in
       let! _ := print_ (Rule 188) in
       let! _ := print_ RawHeader in
       let! _ := print_ (Rule 190) in
       let! _ := response_dict response in
       let! _ := print_ (RawJson response) in
       let! _ := print_ (Rule 215) in
       single_success response)
      (failure ErrorAnalyzingImage).

(** [source.startswith('http://') or source.startswith('https://')] *)
Definition is_url (source : string) : bool :=
  PyStr.startswith source "http://" || PyStr.startswith source "https://".

(** One turn of the loop of lines 259-284: the block appended for
    [source]. *)
Definition image_block (source : string) : M content_block :=
  if is_url source then
    ret (ImageUrl {[ "url" := source ]})
  else
    let! base64_image := encode_image_to_base64 source in
    let mime_type := mime_type_of source in
    ret (ImageUrl {[ "url" := "data:" +:+ mime_type +:+ ";base64,"
                             +:+ base64_image ]}).

(** The loop: [for source in image_sources: content.append(...)]. *)
Fixpoint append_images (image_sources : list string)
    (content : list content_block) : M (list content_block) :=
  match image_sources with
  | [] => ret content
  | source :: rest =>
      let! b := image_block source in
      append_images rest (content ++ [b])
  end.

(** Lines 234-310. *)
Definition analyze_multiple_images (image_sources : list string)
    (prompt : string) : M (gmap string pyval) :=
  let api_key := getenv_OPENAI_API_KEY w in
  if not_api_key api_key then raise missing_key
  else
    let! client := OpenAI api_key in
    try_except
      (let! _ := print_ (AnalyzingMany (length image_sources)) in
       let! _ := print_ (PromptLine prompt) in
       let! content := append_images image_sources [Text prompt] in
       let! response := create
         {| model := "gpt-4o";
            messages := [ {| role := "user"; content := content |} ];
            max_tokens := 1500 |} in
       let! _ := print_ AnalysisComplete in
       let! c := choices_0 response in
       let! total := usage_attr response "total_tokens" total_tokens in
       ret ({[ "success" := PyBool true;
               "analysis" := py_opt_str (message_content c);
               "tokens_used" := PyInt total ]} : gmap string pyval))
      (failure ErrorAnalyzingImages).

End Program.

(* ===================================================================== *)
(** ** Expected requests and records *)
(* ===================================================================== *)

(** The definitions of this part name what the program is shown to do in
    the sections [Runs] and [Inversion] below: the requests it sends, the
    records it returns, the blocks its loop builds. *)

(** A credential is configured: [api_key] is neither [None] nor [""]. *)
Definition has_key (w : world) : Prop :=
  not_api_key (getenv_OPENAI_API_KEY w) = false.

(** The client is constructed: [OpenAI(api_key=api_key)] returns. *)
Definition client_ok (w : world) : Prop :=
  new_client w (getenv_OPENAI_API_KEY w) = Return tt.

(** The console prints whatever it is given. *)
Definition console_ok (w : world) : Prop :=
  forall line, console w line = Return tt.

Definition user_request (blocks : list content_block) (limit : Z) : request :=
  {| model := "gpt-4o";
     messages := [ {| role := "user"; content := blocks |} ];
     max_tokens := limit |}.

(** The [data:] URI of lines 177 and 282. *)
Definition data_uri (mime_type base64_image : string) : string :=
  "data:" +:+ mime_type +:+ ";base64," +:+ base64_image.

Definition url_request (image_url prompt detail : string) : request :=
  user_request
    [ Text prompt; ImageUrl {[ "url" := image_url; "detail" := detail ]} ]
    1000.

Definition file_request (image_path prompt detail : string)
    (data : list byte) : request :=
  url_request
    (data_uri (mime_type_of image_path) (Base64.b64encode data))
    prompt detail.

(** What the single-image operations make of a response. *)
Definition single_record (r : response) : gmap string pyval :=
  match usage r, choices r with
  | None, _ =>
      {[ "success" := PyBool false;
         "error" := PyStr "'NoneType' object has no attribute 'prompt_tokens'" ]}
  | Some _, [] =>
      {[ "success" := PyBool false;
         "error" := PyStr "list index out of range" ]}
  | Some u, c :: _ =>
      {[ "success" := PyBool true;
         "analysis" := py_opt_str (message_content c);
         "model" := PyStr (response_model r);
         "tokens_used" := PyInt (total_tokens u);
         "prompt_tokens" := PyInt (prompt_tokens u);
         "completion_tokens" := PyInt (completion_tokens u) ]}
  end.

(** What the multi-image operation makes of a response. *)
Definition multi_record (r : response) : gmap string pyval :=
  match choices r, usage r with
  | [], _ =>
      {[ "success" := PyBool false;
         "error" := PyStr "list index out of range" ]}
  | _ :: _, None =>
      {[ "success" := PyBool false;
         "error" := PyStr "'NoneType' object has no attribute 'total_tokens'" ]}
  | c :: _, Some u =>
      {[ "success" := PyBool true;
         "analysis" := py_opt_str (message_content c);
         "tokens_used" := PyInt (total_tokens u) ]}
  end.

Definition failure_record (msg : string) : gmap string pyval :=
  {[ "success" := PyBool false; "error" := PyStr msg ]}.

(** What a single-image operation does with the response (lines 79-116
    and 187-224): the dump with its rules at lines [a], [b], [c], then the
    success dict. *)
Definition after_single_call (w : world) (a b c : Z) (r : response)
    : M (gmap string pyval) :=
  let! _ := print_ w (Rule a) in
  let! _ := print_ w RawHeader in
  let! _ := print_ w (Rule b) in
  let! _ := response_dict r in
  let! _ := print_ w (RawJson r) in
  let! _ := print_ w (Rule c) in
  single_success r.

(** What the multi-image operation does with the response (lines
    297-303). *)
Definition after_multi_call (w : world) (r : response)
    : M (gmap string pyval) :=
  let! _ := print_ w AnalysisComplete in
  let! c := choices_0 r in
  let! total := usage_attr r "total_tokens" total_tokens in
  ret ({[ "success" := PyBool true;
          "analysis" := py_opt_str (message_content c);
          "tokens_used" := PyInt total ]} : gmap string pyval).

(** The record made of the outcome of the remote call. *)
Definition record_of (normal : response -> gmap string pyval)
    (o : outcome response) : gmap string pyval :=
  match o with
  | Return r => normal r
  | Raise e => failure_record (exn_msg e)
  end.

(** The outcome is not a success: an exception, or a failure record. *)
Definition failed_or_raised (o : outcome (gmap string pyval)) : Prop :=
  (exists e, o = Raise e) \/ (exists e, o = Return (failure_record (exn_msg e))).

(** A record of the failure shape: [success] is [False], [error] is [msg]
    and no other key is there. *)
Definition is_failure (d : gmap string pyval) (msg : string) : Prop :=
  d !! "success" = Some (PyBool false) /\
  d !! "error" = Some (PyStr msg) /\
  dom d = ({[ "success"; "error" ]} : gset string).

(** The exception leaving [encode_image_to_base64] when the read raises
    [e]. *)
Definition encode_error (image_path : string) (e : exn) : exn :=
  match exn_cls e with
  | FileNotFoundError =>
      mk_exn FileNotFoundError ("Image file not found: " +:+ image_path)
  | _ => mk_exn PyException ("Error encoding image: " +:+ exn_msg e)
  end.

Definition inline_block (source : string) (data : list byte) : content_block :=
  ImageUrl {[ "url" := data_uri (mime_type_of source) (Base64.b64encode data) ]}.

(** The block of one source of the multi-image request, or the exception
    that ends the loop. *)
Definition expected_block (w : world) (source : string) : outcome content_block :=
  if is_url source then Return (ImageUrl {[ "url" := source ]})
  else match open_rb_read w source with
       | Return data => Return (inline_block source data)
       | Raise e => Raise (encode_error source e)
       end.

Definition reads_of (source : string) : list event :=
  if is_url source then [] else [EvRead source].

(** The blocks of a list of sources and the reads made for them; the loop
    stops at the first source whose read raises. *)
Fixpoint expected_blocks (w : world) (image_sources : list string)
    : outcome (list content_block) * list event :=
  match image_sources with
  | [] => (Return [], [])
  | source :: rest =>
      match expected_block w source with
      | Return b =>
          match expected_blocks w rest with
          | (Return bs, evs) => (Return (b :: bs), reads_of source ++ evs)
          | (Raise e, evs) => (Raise e, reads_of source ++ evs)
          end
      | Raise e => (Raise e, reads_of source)
      end
  end.

(** A source the loop gets past: a URL, or a path whose read succeeds. *)
Definition readable (w : world) (path : string) : Prop :=
  exists data, open_rb_read w path = Return data.

Definition loads (w : world) (source : string) : Prop :=
  is_url source = true \/ readable w source.

(** The operation hands back a failure record carrying [msg]. *)
Definition returns_failure (m : M (gmap string pyval)) (msg : string) : Prop :=
  exists d, result_of m = Return d /\ is_failure d msg.

(** The remote call raises [e], whatever the request. *)
Definition service_raises (w : world) (e : exn) : Prop :=
  forall req, chat_completions_create w req = Raise e.

(** The path does not exist: the read raises a [FileNotFoundError]. *)
Definition no_such_file (w : world) (path : string) : Prop :=
  exists e, open_rb_read w path = Raise e /\ exn_cls e = FileNotFoundError.

(** [b] is the image block of [source] in a multi-image request: a dict
    holding the single key ["url"], whose value is the source itself for a
    URL and the [data:] URI of the file's contents for a path. *)
Definition block_for (w : world) (source : string) (b : content_block) : Prop :=
  exists d : gmap string string,
    b = ImageUrl d /\
    dom d = ({[ "url" ]} : gset string) /\
    d !! "detail" = None /\
    ((is_url source = true /\ d !! "url" = Some source) \/
     (is_url source = false /\
      exists data,
        open_rb_read w source = Return data /\
        d !! "url" = Some (data_uri (mime_type_of source)
                             (Base64.b64encode data)))).

(** The keys of the success branch of a record. *)
Definition success_fields : list string :=
  ["analysis"; "model"; "tokens_used"; "prompt_tokens"; "completion_tokens"].

(** The failure branch: [error] is there and no success-branch key is. *)
Definition failure_shape (d : gmap string pyval) : Prop :=
  (exists msg, d !! "error" = Some (PyStr msg)) /\
  Forall (fun k => d !! k = None) success_fields.

(** The success branch of the single-image operations, made from the
    response [r]. *)
Definition single_success_shape (r : response) (d : gmap string pyval) : Prop :=
  exists c cs u,
    choices r = c :: cs /\ usage r = Some u /\
    d !! "analysis" = Some (py_opt_str (message_content c)) /\
    d !! "model" = Some (PyStr (response_model r)) /\
    d !! "tokens_used" = Some (PyInt (total_tokens u)) /\
    d !! "prompt_tokens" = Some (PyInt (prompt_tokens u)) /\
    d !! "completion_tokens" = Some (PyInt (completion_tokens u)) /\
    d !! "error" = None.

(** The success branch of the multi-image operation. *)
Definition multi_success_shape (r : response) (d : gmap string pyval) : Prop :=
  exists c cs u,
    choices r = c :: cs /\ usage r = Some u /\
    d !! "analysis" = Some (py_opt_str (message_content c)) /\
    d !! "tokens_used" = Some (PyInt (total_tokens u)) /\
    d !! "error" = None.

(** The call [m] sent a request that the service answered with [r]. *)
Definition answered (w : world) {A} (m : M A) (r : response) : Prop :=
  exists req,
    EvCreate req ∈ trace_of m /\ chat_completions_create w req = Return r.

(** The two branches of a record, gated by [success]. *)
Definition gated (success_shape : gmap string pyval -> Prop)
    (d : gmap string pyval) : Prop :=
  (d !! "success" = Some (PyBool true) \/
   d !! "success" = Some (PyBool false)) /\
  (d !! "success" = Some (PyBool true) -> success_shape d) /\
  (d !! "success" = Some (PyBool false) -> failure_shape d).

(* ===================================================================== *)
(** ** Sample worlds *)
(* ===================================================================== *)

Module Sample.

Definition reply : response :=
  {| response_id := "chatcmpl-1";
     response_model := "gpt-4o-2024-08-06";
     created := 1700000000;
     choices := [ {| index := 0;
                     message_role := "assistant";
                     message_content := Some "A boardwalk.";
                     finish_reason := "stop" |} ];
     usage := Some {| prompt_tokens := 10;
                      completion_tokens := 5;
                      total_tokens := 15 |} |}.

(** A file system with the single file [a.png]. *)
Definition files (path : string) : outcome (list byte) :=
  if String.eqb path "a.png" then Return [x89; x50; x4e; x47]
  else Raise (mk_exn FileNotFoundError
                ("[Errno 2] No such file or directory: '" +:+ path +:+ "'")).

Definition connection_error : exn :=
  mk_exn (OtherError "APIConnectionError") "Connection error.".

(** Credential set, service answering [reply]. *)
Definition up : world :=
  {| getenv_OPENAI_API_KEY := Some "sk-test";
     new_client := fun _ => Return tt;
     console := fun _ => Return tt;
     open_rb_read := files;
     chat_completions_create := fun _ => Return reply |}.

(** Credential not set. *)
Definition no_key : world :=
  {| getenv_OPENAI_API_KEY := None;
     new_client := fun _ => Return tt;
     console := fun _ => Return tt;
     open_rb_read := files;
     chat_completions_create := fun _ => Return reply |}.

(** Credential set, service unreachable. *)
Definition down : world :=
  {| getenv_OPENAI_API_KEY := Some "sk-test";
     new_client := fun _ => Return tt;
     console := fun _ => Return tt;
     open_rb_read := files;
     chat_completions_create := fun _ => Raise connection_error |}.

End Sample.

(* ===================================================================== *)
(** ** Reading a trace *)
(* ===================================================================== *)

(** The paths read, oldest first. *)
Fixpoint reads_in (t : list event) : list string :=
  match t with
  | [] => []
  | EvRead path :: t' => path :: reads_in t'
  | EvCreate _ :: t' => reads_in t'
  end.

(** The requests sent, oldest first. *)
Fixpoint calls_in (t : list event) : list request :=
  match t with
  | [] => []
  | EvRead _ :: t' => calls_in t'
  | EvCreate req :: t' => req :: calls_in t'
  end.

(** The sources of a multi-image call that are not URLs. *)
Definition local_sources (image_sources : list string) : list string :=
  List.filter (fun s => negb (is_url s)) image_sources.

(** The remote call answers [r], whatever the request. *)
Definition service_answers (w : world) (r : response) : Prop :=
  forall req, chat_completions_create w req = Return r.

(** Worlds for the edge cases: a file that cannot be opened, and answers
    that lack a part. *)
Module Edge.

Definition permission_denied : exn :=
  mk_exn (OtherError "PermissionError")
    "[Errno 13] Permission denied: 'locked.png'".

Definition files (path : string) : outcome (list byte) :=
  if String.eqb path "locked.png" then Raise permission_denied
  else Sample.files path.

Definition locked : world :=
  {| getenv_OPENAI_API_KEY := Some "sk-test";
     new_client := fun _ => Return tt;
     console := fun _ => Return tt;
     open_rb_read := files;
     chat_completions_create := fun _ => Return Sample.reply |}.

Definition reply_without_usage : response :=
  {| response_id := "chatcmpl-2";
     response_model := "gpt-4o-2024-08-06";
     created := 1700000001;
     choices := choices Sample.reply;
     usage := None |}.

Definition reply_without_choices : response :=
  {| response_id := "chatcmpl-3";
     response_model := "gpt-4o-2024-08-06";
     created := 1700000002;
     choices := [];
     usage := usage Sample.reply |}.

Definition empty_reply : response :=
  {| response_id := "chatcmpl-4";
     response_model := "gpt-4o-2024-08-06";
     created := 1700000003;
     choices := [];
     usage := None |}.

Definition answering (r : response) : world :=
  {| getenv_OPENAI_API_KEY := Some "sk-test";
     new_client := fun _ => Return tt;
     console := fun _ => Return tt;
     open_rb_read := Sample.files;
     chat_completions_create := fun _ => Return r |}.

(** A transport error without a message. *)
Definition silent_error : exn := mk_exn (OtherError "APIError") "".

Definition silently_down : world :=
  {| getenv_OPENAI_API_KEY := Some "sk-test";
     new_client := fun _ => Return tt;
     console := fun _ => Return tt;
     open_rb_read := Sample.files;
     chat_completions_create := fun _ => Raise silent_error |}.

(** A console that cannot encode the two marks U+2713 and U+2717. *)
Definition cannot_encode : exn :=
  mk_exn (OtherError "UnicodeEncodeError")
    "'ascii' codec can't encode character in position 0: ordinal not in range(128)".

Definition ascii_only (line : printed) : outcome unit :=
  match line with
  | AnalysisComplete | ErrorAnalyzingImage _ | ErrorAnalyzingImages _ =>
      Raise cannot_encode
  | _ => Return tt
  end.

(** Credential set, service unreachable, console limited to ASCII. *)
Definition down_ascii : world :=
  {| getenv_OPENAI_API_KEY := Some "sk-test";
     new_client := fun _ => Return tt;
     console := ascii_only;
     open_rb_read := Sample.files;
     chat_completions_create := fun _ => Raise Sample.connection_error |}.


(** A client library that refuses to build the client. *)
Definition client_error : exn :=
  mk_exn (OtherError "OpenAIError") "The client could not be initialised".

Definition no_client : world :=
  {| getenv_OPENAI_API_KEY := Some "sk-test";
     new_client := fun _ => Raise client_error;
     console := fun _ => Return tt;
     open_rb_read := Sample.files;
     chat_completions_create := fun _ => Raise Sample.connection_error |}.

End Edge.

(* ===================================================================== *)
(** ** Running the operations *)
(* ===================================================================== *)

Ltac unfold_ops :=
  unfold analyze_image_from_url, analyze_image_from_file,
    analyze_multiple_images, encode_image_to_base64, read_file, create,
    after_single_call, after_multi_call, print_, OpenAI,
    response_dict, single_success, failure, usage_attr, choices_0.

Ltac unfold_monad :=
  unfold run, result_of, trace_of, try_except, bind, ret, raise, lift, log.

Section MonadLaws.

Context {A B : Type}.

Lemma try_except_bind (m : M A) (k : A -> M B) (h : exn -> M B) t :
  try_except (bind m k) h t =
    match m t with
    | (Return a, t') => try_except (k a) h t'
    | (Raise e, t') => h e t'
    end.
Proof.
  unfold try_except, bind. destruct (m t) as [[a|e] t']; reflexivity.
Qed.

Lemma bind_run (m : M A) (k : A -> M B) t :
  bind m k t =
    match m t with
    | (Return a, t') => k a t'
    | (Raise e, t') => (Raise e, t')
    end.
Proof. reflexivity. Qed.

End MonadLaws.

Section Runs.

Variable w : world.

Lemma create_run (req : request) t :
  create w req t = (chat_completions_create w req, t ++ [EvCreate req]).
Proof. reflexivity. Qed.

Lemma read_file_run (path : string) t :
  read_file w path t = (open_rb_read w path, t ++ [EvRead path]).
Proof. reflexivity. Qed.

Lemma print_run (line : printed) t : print_ w line t = (console w line, t).
Proof. reflexivity. Qed.

(** The handler of every operation. *)
Lemma failure_run (line : string -> printed) (e : exn) t :
  failure w line e t =
    match console w (line (exn_msg e)) with
    | Return _ => (Return (failure_record (exn_msg e)), t)
    | Raise e' => (Raise e', t)
    end.
Proof.
  unfold failure. rewrite bind_run, print_run.
  by destruct (console w (line (exn_msg e))).
Qed.

(** Whatever the console does, the handler gives a failure record or
    raises, and does no I/O. *)
Lemma failure_cases (line : string -> printed) (e : exn) t :
  exists o, failure w line e t = (o, t) /\ failed_or_raised o.
Proof.
  rewrite failure_run. destruct (console w (line (exn_msg e))) as [[]|e'].
  - eexists. split; [reflexivity|]. right. by exists e.
  - eexists. split; [reflexivity|]. left. by exists e'.
Qed.

(** A print that returns leaves the rest of the [try] block to run. *)
Lemma try_print {A} (line : printed) (k : M A) (h : exn -> M A) t :
  console w line = Return tt ->
  try_except (let! _ := print_ w line in k) h t = try_except k h t.
Proof. intros H. by rewrite try_except_bind, print_run, H. Qed.

(** A print that raises sends the [try] block to its handler at once. *)
Lemma try_print_cases {A} (line : printed) (k : M A) (h : exn -> M A) t :
  try_except (let! _ := print_ w line in k) h t = try_except k h t \/
  exists e, try_except (let! _ := print_ w line in k) h t = h e t.
Proof.
  rewrite try_except_bind, print_run.
  destruct (console w line) as [[]|e]; [by left | right; by exists e].
Qed.

Lemma no_key_url image_url prompt detail t :
  ~ has_key w ->
  analyze_image_from_url w image_url prompt detail t = (Raise missing_key, t).
Proof.
  unfold has_key, analyze_image_from_url.
  destruct (not_api_key _); [reflexivity | congruence].
Qed.

Lemma no_key_file image_path prompt detail t :
  ~ has_key w ->
  analyze_image_from_file w image_path prompt detail t = (Raise missing_key, t).
Proof.
  unfold has_key, analyze_image_from_file.
  destruct (not_api_key _); [reflexivity | congruence].
Qed.

Lemma no_key_multi image_sources prompt t :
  ~ has_key w ->
  analyze_multiple_images w image_sources prompt t = (Raise missing_key, t).
Proof.
  unfold has_key, analyze_multiple_images.
  destruct (not_api_key _); [reflexivity | congruence].
Qed.

(** After the remote call, with a console that prints, a single-image
    operation only normalises. *)
Lemma single_tail (a b c : Z) (r : response) t :
  console_ok w ->
  try_except (after_single_call w a b c r) (failure w ErrorAnalyzingImage) t
  = (Return (single_record r), t).
Proof.
  intros Hc. unfold after_single_call.
  rewrite !try_print by apply Hc.
  rewrite try_except_bind. unfold response_dict, usage_attr.
  destruct (usage r) as [u|] eqn:Hu.
  - cbn [bind ret]. rewrite !try_print by apply Hc.
    unfold single_success, choices_0, usage_attr, single_record.
    rewrite Hu. destruct (choices r) as [|ch chs].
    + rewrite try_except_bind. cbn [raise]. rewrite failure_run, Hc.
      reflexivity.
    + reflexivity.
  - cbn [bind raise]. rewrite failure_run, Hc.
    unfold single_record. by rewrite Hu.
Qed.

(** Whatever the console does, the outcome after the call is the
    normalised response, a failure record or an exception, and there is no
    further I/O. *)
Lemma single_tail_cases (a b c : Z) (r : response) t :
  exists o,
    try_except (after_single_call w a b c r) (failure w ErrorAnalyzingImage) t
    = (o, t) /\
    (o = Return (single_record r) \/ failed_or_raised o).
Proof.
  assert (Hfail : forall e, exists o,
            failure w ErrorAnalyzingImage e t = (o, t) /\
            (o = Return (single_record r) \/ failed_or_raised o)).
  { intros e. destruct (failure_cases ErrorAnalyzingImage e t) as (o & H1 & H2).
    exists o. auto. }
  unfold after_single_call.
  repeat (rewrite try_except_bind, print_run;
          destruct (console w _) as [[]|?]; [|apply Hfail]).
  rewrite try_except_bind. unfold response_dict, usage_attr.
  destruct (usage r) as [u|] eqn:Hu; [|apply Hfail].
  cbn [bind ret].
  repeat (rewrite try_except_bind, print_run;
          destruct (console w _) as [[]|?]; [|apply Hfail]).
  unfold single_success, choices_0, usage_attr. rewrite Hu.
  destruct (choices r) as [|ch chs] eqn:Hch.
  - rewrite try_except_bind. cbn [raise]. apply Hfail.
  - eexists. split; [reflexivity|]. left.
    unfold single_record. by rewrite Hu, Hch.
Qed.

(** A run with a credential, a client and a console that prints. *)
Lemma run_url image_url prompt detail t :
  has_key w -> client_ok w -> console_ok w ->
  analyze_image_from_url w image_url prompt detail t =
    (Return (record_of single_record
               (chat_completions_create w
                  (url_request image_url prompt detail))),
     t ++ [EvCreate (url_request image_url prompt detail)]).
Proof.
  unfold has_key, client_ok, analyze_image_from_url. intros -> Hcl Hc.
  rewrite bind_run. unfold OpenAI at 1, lift at 1. rewrite Hcl.
  rewrite !try_print by apply Hc.
  rewrite try_except_bind, create_run.
  fold (user_request
          [Text prompt; ImageUrl {[ "url" := image_url; "detail" := detail ]}]
          1000).
  fold (url_request image_url prompt detail).
  destruct (chat_completions_create w _) as [r|e]; simpl.
  - by apply (single_tail 80 82 107).
  - by rewrite failure_run, Hc.
Qed.

(** Any run: the trace grows by nothing or by the one call, and the
    outcome is the normalised answer, a failure record or an exception. *)
Lemma url_cases image_url prompt detail t :
  exists o t',
    analyze_image_from_url w image_url prompt detail t = (o, t') /\
    ((t' = t /\ failed_or_raised o) \/
     (has_key w /\
      t' = t ++ [EvCreate (url_request image_url prompt detail)] /\
      (o = Return (record_of single_record
                     (chat_completions_create w
                        (url_request image_url prompt detail))) \/
       failed_or_raised o))).
Proof.
  unfold analyze_image_from_url.
  destruct (not_api_key _) eqn:Hk.
  { do 2 eexists. split; [reflexivity|]. left. split; [done|]. left.
    by eexists. }
  rewrite bind_run. unfold OpenAI at 1, lift at 1.
  destruct (new_client w _) as [[]|e0].
  2:{ do 2 eexists. split; [reflexivity|]. left. split; [done|]. left.
      by eexists. }
  assert (Hfail : forall e, exists o t',
            failure w ErrorAnalyzingImage e t = (o, t') /\
            ((t' = t /\ failed_or_raised o) \/
             (has_key w /\
              t' = t ++ [EvCreate (url_request image_url prompt detail)] /\
              (o = Return (record_of single_record
                             (chat_completions_create w
                                (url_request image_url prompt detail))) \/
               failed_or_raised o)))).
  { intros e. destruct (failure_cases ErrorAnalyzingImage e t) as (o & H1 & H2).
    exists o, t. auto. }
  repeat (rewrite try_except_bind, print_run;
          destruct (console w _) as [[]|?]; [|apply Hfail]).
  rewrite try_except_bind, create_run.
  fold (user_request
          [Text prompt; ImageUrl {[ "url" := image_url; "detail" := detail ]}]
          1000).
  fold (url_request image_url prompt detail).
  set (req := url_request image_url prompt detail).
  destruct (chat_completions_create w req) as [r|e] eqn:Hr.
  - destruct (single_tail_cases 80 82 107 r (t ++ [EvCreate req]))
      as (o & H1 & H2).
    exists o, (t ++ [EvCreate req]). split; [exact H1|]. right.
    split; [exact Hk|]. split; [done|]. exact H2.
  - destruct (failure_cases ErrorAnalyzingImage e (t ++ [EvCreate req]))
      as (o & H1 & H2).
    exists o, (t ++ [EvCreate req]). split; [exact H1|]. right.
    split; [exact Hk|]. split; [done|]. by right.
Qed.

Lemma encode_run (image_path : string) t :
  encode_image_to_base64 w image_path t =
    (match open_rb_read w image_path with
     | Return data => Return (Base64.b64encode data)
     | Raise e => Raise (encode_error image_path e)
     end, t ++ [EvRead image_path]).
Proof.
  unfold encode_image_to_base64, encode_error.
  rewrite try_except_bind, read_file_run.
  destruct (open_rb_read w image_path) as [data|e]; [reflexivity|].
  destruct (exn_cls e); reflexivity.
Qed.

Lemma run_file image_path prompt detail t :
  has_key w -> client_ok w -> console_ok w ->
  analyze_image_from_file w image_path prompt detail t =
    match open_rb_read w image_path with
    | Return data =>
        let req := file_request image_path prompt detail data in
        (Return (record_of single_record (chat_completions_create w req)),
         t ++ [EvRead image_path; EvCreate req])
    | Raise e =>
        (Return (failure_record (exn_msg (encode_error image_path e))),
         t ++ [EvRead image_path])
    end.
Proof.
  unfold has_key, client_ok, analyze_image_from_file. intros -> Hcl Hc.
  rewrite bind_run. unfold OpenAI at 1, lift at 1. rewrite Hcl.
  rewrite !try_print by apply Hc.
  rewrite try_except_bind, encode_run.
  destruct (open_rb_read w image_path) as [data|e];
    [|by rewrite failure_run, Hc].
  rewrite try_except_bind, create_run.
  fold (data_uri (mime_type_of image_path) (Base64.b64encode data)).
  fold (user_request
          [Text prompt;
           ImageUrl {[ "url" := data_uri (mime_type_of image_path)
                                  (Base64.b64encode data);
                       "detail" := detail ]}] 1000).
  fold (url_request (data_uri (mime_type_of image_path)
                       (Base64.b64encode data)) prompt detail).
  fold (file_request image_path prompt detail data).
  cbv zeta. rewrite <- app_assoc. simpl app.
  destruct (chat_completions_create w _) as [r|e]; simpl.
  - by apply (single_tail 188 190 215).
  - by rewrite failure_run, Hc.
Qed.

Lemma file_cases image_path prompt detail t :
  exists o t',
    analyze_image_from_file w image_path prompt detail t = (o, t') /\
    ((t' = t /\ failed_or_raised o) \/
     (has_key w /\ t' = t ++ [EvRead image_path] /\ failed_or_raised o) \/
     (has_key w /\
      exists data,
        open_rb_read w image_path = Return data /\
        t' = t ++ [EvRead image_path;
                   EvCreate (file_request image_path prompt detail data)] /\
        (o = Return (record_of single_record
                       (chat_completions_create w
                          (file_request image_path prompt detail data))) \/
         failed_or_raised o))).
Proof.
  unfold analyze_image_from_file.
  destruct (not_api_key _) eqn:Hk.
  { do 2 eexists. split; [reflexivity|]. left. split; [done|]. left.
    by eexists. }
  rewrite bind_run. unfold OpenAI at 1, lift at 1.
  destruct (new_client w _) as [[]|e0].
  2:{ do 2 eexists. split; [reflexivity|]. left. split; [done|]. left.
      by eexists. }
  assert (Hfail : forall (P : outcome (gmap string pyval) -> list event -> Prop)
                    e t0,
            (forall o, failed_or_raised o -> P o t0) ->
            exists o t', failure w ErrorAnalyzingImage e t0 = (o, t') /\ P o t').
  { intros P e t0 HP.
    destruct (failure_cases ErrorAnalyzingImage e t0) as (o & H1 & H2).
    exists o, t0. auto. }
  repeat (rewrite try_except_bind, print_run;
          destruct (console w _) as [[]|?]; [|apply Hfail; by left]).
  rewrite try_except_bind, encode_run.
  destruct (open_rb_read w image_path) as [data|e] eqn:Hdata.
  2:{ apply Hfail. intros o Ho. right. left. by repeat split. }
  rewrite try_except_bind, create_run.
  fold (data_uri (mime_type_of image_path) (Base64.b64encode data)).
  fold (user_request
          [Text prompt;
           ImageUrl {[ "url" := data_uri (mime_type_of image_path)
                                  (Base64.b64encode data);
                       "detail" := detail ]}] 1000).
  fold (url_request (data_uri (mime_type_of image_path)
                       (Base64.b64encode data)) prompt detail).
  fold (file_request image_path prompt detail data).
  rewrite <- app_assoc. simpl app.
  set (req := file_request image_path prompt detail data).
  destruct (chat_completions_create w req) as [r|e] eqn:Hr.
  - destruct (single_tail_cases 188 190 215 r
                (t ++ [EvRead image_path; EvCreate req])) as (o & H1 & H2).
    do 2 eexists. split; [exact H1|]. right. right.
    split; [exact Hk|]. exists data. split; [done|]. split; [done|].
    fold req. rewrite Hr. exact H2.
  - apply Hfail. intros o Ho. right. right.
    split; [exact Hk|]. exists data. split; [done|]. split; [done|].
    by right.
Qed.

Lemma image_block_run (source : string) t :
  image_block w source t = (expected_block w source, t ++ reads_of source).
Proof.
  unfold image_block, expected_block, reads_of.
  destruct (is_url source).
  - unfold ret. by rewrite app_nil_r.
  - rewrite bind_run, encode_run.
    destruct (open_rb_read w source) as [data|e]; reflexivity.
Qed.

Lemma append_images_run (image_sources : list string) content t :
  append_images w image_sources content t =
    (match fst (expected_blocks w image_sources) with
     | Return bs => Return (content ++ bs)
     | Raise e => Raise e
     end, t ++ snd (expected_blocks w image_sources)).
Proof.
  revert content t.
  induction image_sources as [|source rest IH]; intros content t; simpl.
  - unfold ret. by rewrite !app_nil_r.
  - rewrite bind_run, image_block_run.
    destruct (expected_block w source) as [b|e]; [|reflexivity].
    rewrite IH.
    destruct (expected_blocks w rest) as [[bs|e] evs]; simpl;
      by rewrite <- !app_assoc.
Qed.

(** After the remote call, with a console that prints, the multi-image
    operation only normalises. *)
Lemma multi_tail (r : response) t :
  console_ok w ->
  try_except (after_multi_call w r) (failure w ErrorAnalyzingImages) t
  = (Return (multi_record r), t).
Proof.
  intros Hc. unfold after_multi_call. rewrite try_print by apply Hc.
  unfold multi_record, choices_0, usage_attr.
  rewrite try_except_bind.
  destruct (choices r) as [|ch chs].
  - cbn [raise]. by rewrite failure_run, Hc.
  - cbn [ret]. rewrite try_except_bind.
    destruct (usage r) as [u|].
    + reflexivity.
    + cbn [raise]. by rewrite failure_run, Hc.
Qed.

Lemma multi_tail_cases (r : response) t :
  exists o,
    try_except (after_multi_call w r) (failure w ErrorAnalyzingImages) t
    = (o, t) /\
    (o = Return (multi_record r) \/ failed_or_raised o).
Proof.
  assert (Hfail : forall e, exists o,
            failure w ErrorAnalyzingImages e t = (o, t) /\
            (o = Return (multi_record r) \/ failed_or_raised o)).
  { intros e. destruct (failure_cases ErrorAnalyzingImages e t) as (o & H1 & H2).
    exists o. auto. }
  unfold after_multi_call.
  rewrite try_except_bind, print_run.
  destruct (console w _) as [[]|?]; [|apply Hfail].
  unfold choices_0, usage_attr. rewrite try_except_bind.
  destruct (choices r) as [|ch chs] eqn:Hch; [apply Hfail|].
  cbn [ret]. rewrite try_except_bind.
  destruct (usage r) as [u|] eqn:Hu; [|apply Hfail].
  eexists. split; [reflexivity|]. left.
  unfold multi_record. by rewrite Hch, Hu.
Qed.

Lemma run_multi image_sources prompt t :
  has_key w -> client_ok w -> console_ok w ->
  analyze_multiple_images w image_sources prompt t =
    match expected_blocks w image_sources with
    | (Return bs, evs) =>
        let req := user_request (Text prompt :: bs) 1500 in
        (Return (record_of multi_record (chat_completions_create w req)),
         t ++ evs ++ [EvCreate req])
    | (Raise e, evs) => (Return (failure_record (exn_msg e)), t ++ evs)
    end.
Proof.
  unfold has_key, client_ok, analyze_multiple_images. intros -> Hcl Hc.
  rewrite bind_run. unfold OpenAI at 1, lift at 1. rewrite Hcl.
  rewrite !try_print by apply Hc.
  rewrite try_except_bind, append_images_run.
  destruct (expected_blocks w image_sources) as [[bs|e] evs]; simpl;
    [|by rewrite failure_run, Hc].
  rewrite try_except_bind, create_run.
  fold (user_request (Text prompt :: bs) 1500).
  rewrite <- app_assoc.
  destruct (chat_completions_create w _) as [r|e]; simpl.
  - by apply multi_tail.
  - by rewrite failure_run, Hc.
Qed.

Lemma multi_cases image_sources prompt t :
  exists o t',
    analyze_multiple_images w image_sources prompt t = (o, t') /\
    ((t' = t /\ failed_or_raised o) \/
     (has_key w /\
      exists e evs,
        expected_blocks w image_sources = (Raise e, evs) /\
        t' = t ++ evs /\ failed_or_raised o) \/
     (has_key w /\
      exists bs evs,
        expected_blocks w image_sources = (Return bs, evs) /\
        t' = t ++ evs ++ [EvCreate (user_request (Text prompt :: bs) 1500)] /\
        (o = Return (record_of multi_record
                       (chat_completions_create w
                          (user_request (Text prompt :: bs) 1500))) \/
         failed_or_raised o))).
Proof.
  unfold analyze_multiple_images.
  destruct (not_api_key _) eqn:Hk.
  { do 2 eexists. split; [reflexivity|]. left. split; [done|]. left.
    by eexists. }
  rewrite bind_run. unfold OpenAI at 1, lift at 1.
  destruct (new_client w _) as [[]|e0].
  2:{ do 2 eexists. split; [reflexivity|]. left. split; [done|]. left.
      by eexists. }
  assert (Hfail : forall (P : outcome (gmap string pyval) -> list event -> Prop)
                    e t0,
            (forall o, failed_or_raised o -> P o t0) ->
            exists o t', failure w ErrorAnalyzingImages e t0 = (o, t') /\ P o t').
  { intros P e t0 HP.
    destruct (failure_cases ErrorAnalyzingImages e t0) as (o & H1 & H2).
    exists o, t0. auto. }
  repeat (rewrite try_except_bind, print_run;
          destruct (console w _) as [[]|?]; [|apply Hfail; by left]).
  rewrite try_except_bind, append_images_run.
  destruct (expected_blocks w image_sources) as [[bs|e] evs] eqn:Hb; simpl.
  2:{ apply Hfail. intros o Ho. right. left. split; [exact Hk|].
      by exists e, evs. }
  rewrite try_except_bind, create_run.
  fold (user_request (Text prompt :: bs) 1500).
  rewrite <- app_assoc.
  set (req := user_request (Text prompt :: bs) 1500).
  destruct (chat_completions_create w req) as [r|e] eqn:Hr.
  - destruct (multi_tail_cases r (t ++ evs ++ [EvCreate req]))
      as (o & H1 & H2).
    do 2 eexists. split; [exact H1|]. right. right.
    split; [exact Hk|]. exists bs, evs. split; [done|]. split; [done|].
    fold req. rewrite Hr. exact H2.
  - apply Hfail. intros o Ho. right. right.
    split; [exact Hk|]. exists bs, evs. split; [done|]. split; [done|].
    by right.
Qed.

End Runs.
(* ===================================================================== *)
(** ** The loop over the sources *)
(* ===================================================================== *)

Section Loop.

Variable w : world.

Lemma expected_blocks_app (pre post : list string) :
  expected_blocks w (pre ++ post) =
    match expected_blocks w pre with
    | (Return bs, evs) =>
        match expected_blocks w post with
        | (Return bs', evs') => (Return (bs ++ bs'), evs ++ evs')
        | (Raise e, evs') => (Raise e, evs ++ evs')
        end
    | (Raise e, evs) => (Raise e, evs)
    end.
Proof.
  induction pre as [|s pre IH]; simpl.
  - by destruct (expected_blocks w post) as [[bs'|e] evs'].
  - destruct (expected_block w s) as [b|e]; [|reflexivity].
    rewrite IH.
    destruct (expected_blocks w pre) as [[bs|e] evs]; [|reflexivity].
    destruct (expected_blocks w post) as [[bs'|e] evs']; simpl;
      by rewrite <- app_assoc.
Qed.

Lemma loads_block (s : string) :
  loads w s -> exists b, expected_block w s = Return b.
Proof.
  unfold loads, expected_block. intros [-> | [data ->]]; [by eexists|].
  destruct (is_url s); by eexists.
Qed.

(** When every source loads, the loop yields one block per source, in
    order, and reads exactly the local ones, in order. *)
Lemma expected_blocks_loads (srcs : list string) :
  Forall (loads w) srcs ->
  exists bs,
    expected_blocks w srcs = (Return bs, flat_map reads_of srcs) /\
    Forall2 (fun s b => expected_block w s = Return b) srcs bs.
Proof.
  induction 1 as [|s srcs Hs _ [bs [IH1 IH2]]]; simpl.
  - exists []. split; [reflexivity | constructor].
  - destruct (loads_block s Hs) as [b Hb]. rewrite Hb, IH1.
    exists (b :: bs). split; [reflexivity | by constructor].
Qed.

(** The loop stops at the first source whose read raises. *)
Lemma expected_blocks_stops (pre post : list string) (s : string) (e : exn) :
  Forall (loads w) pre ->
  expected_block w s = Raise e ->
  expected_blocks w (pre ++ s :: post) =
    (Raise e, flat_map reads_of pre ++ reads_of s).
Proof.
  intros Hpre Hs. rewrite expected_blocks_app.
  destruct (expected_blocks_loads pre Hpre) as [bs [-> _]].
  simpl. by rewrite Hs.
Qed.

(** Whatever happens, the loop returns as many blocks as sources. *)
Lemma expected_blocks_length (srcs : list string) bs evs :
  expected_blocks w srcs = (Return bs, evs) ->
  Forall2 (fun s b => expected_block w s = Return b) srcs bs /\
  evs = flat_map reads_of srcs.
Proof.
  revert bs evs. induction srcs as [|s srcs IH]; simpl; intros bs evs H.
  - inversion H. split; [constructor | reflexivity].
  - destruct (expected_block w s) as [b|e] eqn:Hb; [|discriminate].
    destruct (expected_blocks w srcs) as [[bs'|e] evs'] eqn:Hrest;
      [|discriminate].
    inversion H; subst. destruct (IH bs' evs' eq_refl) as [IH1 IH2].
    split; [by constructor | by rewrite IH2].
Qed.

End Loop.

(* ===================================================================== *)
(** ** The shape of the records *)
(* ===================================================================== *)

Lemma failure_record_is_failure (msg : string) :
  is_failure (failure_record msg) msg.
Proof. repeat split. Qed.

Lemma returns_failure_intro (m : M (gmap string pyval)) (msg : string) :
  fst (m []) = Return (failure_record msg) -> returns_failure m msg.
Proof.
  intros H. exists (failure_record msg).
  split; [exact H | apply failure_record_is_failure].
Qed.

Lemma no_such_file_block (w : world) (path : string) :
  is_url path = false -> no_such_file w path ->
  expected_block w path =
    Raise (mk_exn FileNotFoundError ("Image file not found: " +:+ path)).
Proof.
  intros Hu [e [He Hc]]. unfold expected_block, encode_error.
  by rewrite Hu, He, Hc.
Qed.

(* ===================================================================== *)
Lemma reads_of_local (srcs : list string) :
  flat_map reads_of srcs = List.map EvRead (local_sources srcs).
Proof.
  unfold local_sources, reads_of.
  induction srcs as [|s srcs IH]; simpl; [done|].
  destruct (is_url s); simpl; by rewrite IH.
Qed.

(* ===================================================================== *)
(** ** What a call did, read off its outcome and its trace *)
(* ===================================================================== *)

Section Inversion.

Variable w : world.

Lemma has_key_dec : has_key w \/ ~ has_key w.
Proof.
  unfold has_key. destruct (not_api_key _); [right; discriminate | by left].
Qed.

Lemma reads_only (srcs : list string) (ev : event) :
  ev ∈ snd (expected_blocks w srcs) -> exists path, ev = EvRead path.
Proof.
  induction srcs as [|s srcs IH]; simpl.
  - intros H. by apply not_elem_of_nil in H.
  - assert (Hs : ev ∈ reads_of s -> exists path, ev = EvRead path).
    { unfold reads_of. destruct (is_url s); intros H.
      - by apply not_elem_of_nil in H.
      - apply list_elem_of_singleton in H. by exists s. }
    destruct (expected_block w s) as [b|e]; [|exact Hs].
    destruct (expected_blocks w srcs) as [[bs|e] evs]; simpl in *;
      intros H; apply elem_of_app in H as [H|H]; auto.
Qed.

Lemma returned_not_raised (o : outcome (gmap string pyval))
    (d : gmap string pyval) :
  o = Return d -> failed_or_raised o -> exists e, d = failure_record (exn_msg e).
Proof.
  intros -> [[e H] | [e H]]; [discriminate|]. exists e. by injection H.
Qed.

Lemma created_url image_url prompt detail req :
  EvCreate req ∈ trace_of (analyze_image_from_url w image_url prompt detail) ->
  has_key w /\ req = url_request image_url prompt detail.
Proof.
  unfold trace_of, run.
  destruct (url_cases w image_url prompt detail [])
    as (o & t' & -> & [[-> _] | (Hk & -> & _)]); simpl; intros H.
  - by apply not_elem_of_nil in H.
  - apply list_elem_of_singleton in H. split; [done | congruence].
Qed.

Lemma created_file image_path prompt detail req :
  EvCreate req ∈ trace_of (analyze_image_from_file w image_path prompt detail) ->
  has_key w /\
  exists data, open_rb_read w image_path = Return data /\
               req = file_request image_path prompt detail data.
Proof.
  unfold trace_of, run.
  destruct (file_cases w image_path prompt detail [])
    as (o & t' & -> &
        [[-> _] | [(Hk & -> & _) | (Hk & data & Hdata & -> & _)]]);
    simpl; intros H.
  - by apply not_elem_of_nil in H.
  - apply list_elem_of_singleton in H. discriminate.
  - apply elem_of_cons in H as [H|H]; [discriminate|].
    apply list_elem_of_singleton in H. split; [done|].
    exists data. split; [done | congruence].
Qed.

Lemma created_multi image_sources prompt req :
  EvCreate req ∈ trace_of (analyze_multiple_images w image_sources prompt) ->
  has_key w /\
  exists bs,
    Forall2 (fun s b => expected_block w s = Return b) image_sources bs /\
    req = user_request (Text prompt :: bs) 1500.
Proof.
  unfold trace_of, run.
  destruct (multi_cases w image_sources prompt [])
    as (o & t' & -> &
        [[-> _] | [(Hk & e & evs & Hb & -> & _)
                  | (Hk & bs & evs & Hb & -> & _)]]);
    simpl; intros H.
  - by apply not_elem_of_nil in H.
  - destruct (reads_only image_sources (EvCreate req)) as [path Hp];
      [by rewrite Hb | discriminate].
  - apply elem_of_app in H as [H|H].
    + destruct (reads_only image_sources (EvCreate req)) as [path Hp];
        [by rewrite Hb | discriminate].
    + apply list_elem_of_singleton in H. split; [done|].
      exists bs. split; [|congruence].
      by destruct (expected_blocks_length w image_sources bs evs Hb).
Qed.

(** A returned record is the normalised outcome of the remote call, or
    the failure record of an exception raised in the [try] block. *)
Lemma returned_url image_url prompt detail d :
  result_of (analyze_image_from_url w image_url prompt detail) = Return d ->
  (exists req,
     EvCreate req ∈ trace_of (analyze_image_from_url w image_url prompt detail) /\
     d = record_of single_record (chat_completions_create w req)) \/
  (exists e, d = failure_record (exn_msg e)).
Proof.
  unfold result_of, trace_of, run.
  destruct (url_cases w image_url prompt detail [])
    as (o & t' & -> & [[-> Ho] | (Hk & -> & [-> | Ho])]); simpl; intros H.
  - right. by apply (returned_not_raised o).
  - left. eexists. split; [apply list_elem_of_here | congruence].
  - right. by apply (returned_not_raised o).
Qed.

Lemma returned_file image_path prompt detail d :
  result_of (analyze_image_from_file w image_path prompt detail) = Return d ->
  (exists req,
     EvCreate req
       ∈ trace_of (analyze_image_from_file w image_path prompt detail) /\
     d = record_of single_record (chat_completions_create w req)) \/
  (exists e, d = failure_record (exn_msg e)).
Proof.
  unfold result_of, trace_of, run.
  destruct (file_cases w image_path prompt detail [])
    as (o & t' & -> &
        [[-> Ho] | [(Hk & -> & Ho)
                   | (Hk & data & Hdata & -> & [-> | Ho])]]);
    simpl; intros H.
  - right. by apply (returned_not_raised o).
  - right. by apply (returned_not_raised o).
  - left. eexists.
    split; [apply list_elem_of_further, list_elem_of_here | congruence].
  - right. by apply (returned_not_raised o).
Qed.

Lemma returned_multi image_sources prompt d :
  result_of (analyze_multiple_images w image_sources prompt) = Return d ->
  (exists req,
     EvCreate req
       ∈ trace_of (analyze_multiple_images w image_sources prompt) /\
     d = record_of multi_record (chat_completions_create w req)) \/
  (exists e, d = failure_record (exn_msg e)).
Proof.
  unfold result_of, trace_of, run.
  destruct (multi_cases w image_sources prompt [])
    as (o & t' & -> &
        [[-> Ho] | [(Hk & e & evs & Hb & -> & Ho)
                   | (Hk & bs & evs & Hb & -> & [-> | Ho])]]);
    simpl; intros H.
  - right. by apply (returned_not_raised o).
  - right. by apply (returned_not_raised o).
  - left. eexists.
    split; [apply elem_of_app; right; apply list_elem_of_here | congruence].
  - right. by apply (returned_not_raised o).
Qed.

End Inversion.

(* ===================================================================== *)
(** ** Failures at the boundary of the operations *)
(* ===================================================================== *)

(** C1, as stated, fails, in four ways.  With the credential unset the
    operations raise [ValueError] to their caller.  With a credential and
    the service unreachable: when the client cannot be constructed, the
    constructor's exception reaches the caller (the call sits before the
    [try]); when the console cannot print the line of the handler, the
    exception of that [print] reaches the caller; and when the transport
    error has an empty message, the record returned has the empty string
    for [error]. *)
Lemma C1_exceptions_escape_and_error_may_be_empty :
  (result_of (analyze_image_from_url Sample.no_key
                "http://x/img.jpg" "Describe" "auto") = Raise missing_key /\
   result_of (analyze_image_from_file Sample.no_key
                "a.png" "Describe" "auto") = Raise missing_key /\
   result_of (analyze_multiple_images Sample.no_key
                ["a.png"; "http://x/b.jpg"] "Compare") = Raise missing_key) /\
  (service_raises Edge.no_client Sample.connection_error /\
   result_of (analyze_image_from_url Edge.no_client
                "http://x/img.jpg" "Describe" "auto")
   = Raise Edge.client_error) /\
  (service_raises Edge.down_ascii Sample.connection_error /\
   result_of (analyze_image_from_url Edge.down_ascii
                "http://x/img.jpg" "Describe" "auto")
   = Raise Edge.cannot_encode /\
   result_of (analyze_image_from_file Edge.down_ascii
                "missing.png" "Describe" "auto")
   = Raise Edge.cannot_encode /\
   result_of (analyze_multiple_images Edge.down_ascii
                ["a.png"; "http://x/b.jpg"] "Compare")
   = Raise Edge.cannot_encode) /\
  (service_raises Edge.silently_down Edge.silent_error /\
   result_of (analyze_image_from_url Edge.silently_down
                "http://x/img.jpg" "Describe" "auto")
   = Return {[ "success" := PyBool false; "error" := PyStr "" ]}).
Proof.
  split; [by repeat split|].
  split; [split; [by intros req | reflexivity]|].
  split; [split; [by intros req | by repeat split]|].
  split; [by intros req | reflexivity].
Qed.

(** C1 (amended).  With a credential configured, the client constructed
    and a console that prints, no operation raises: each returns a record.
    A transport error raised by the remote call gives [success = False]
    with [error] the message of that exception, whatever it is, and a
    nonexistent local path gives [success = False] with the non-empty
    [error] "Image file not found: <path>".  With the credential unset (or
    empty) each operation raises [ValueError] before any I/O. *)
Theorem C1_failures_captured_behind_credential (w : world) :
  (~ has_key w ->
   (forall image_url prompt detail,
      run (analyze_image_from_url w image_url prompt detail)
      = (Raise missing_key, [])) /\
   (forall image_path prompt detail,
      run (analyze_image_from_file w image_path prompt detail)
      = (Raise missing_key, [])) /\
   (forall image_sources prompt,
      run (analyze_multiple_images w image_sources prompt)
      = (Raise missing_key, []))) /\
  (has_key w -> client_ok w -> console_ok w ->
   (forall image_url prompt detail, exists d,
      result_of (analyze_image_from_url w image_url prompt detail) = Return d) /\
   (forall image_path prompt detail, exists d,
      result_of (analyze_image_from_file w image_path prompt detail) = Return d) /\
   (forall image_sources prompt, exists d,
      result_of (analyze_multiple_images w image_sources prompt) = Return d) /\
   (forall e image_url prompt detail,
      service_raises w e ->
      returns_failure (analyze_image_from_url w image_url prompt detail)
        (exn_msg e)) /\
   (forall e image_path prompt detail,
      service_raises w e -> readable w image_path ->
      returns_failure (analyze_image_from_file w image_path prompt detail)
        (exn_msg e)) /\
   (forall e image_sources prompt,
      service_raises w e -> Forall (loads w) image_sources ->
      returns_failure (analyze_multiple_images w image_sources prompt)
        (exn_msg e)) /\
   (forall image_path prompt detail,
      no_such_file w image_path ->
      returns_failure (analyze_image_from_file w image_path prompt detail)
        ("Image file not found: " +:+ image_path) /\
      "Image file not found: " +:+ image_path <> "") /\
   (forall pre image_path post prompt,
      Forall (loads w) pre ->
      is_url image_path = false ->
      no_such_file w image_path ->
      returns_failure
        (analyze_multiple_images w (pre ++ image_path :: post) prompt)
        ("Image file not found: " +:+ image_path))).
Proof.
  split.
  - intros Hno. unfold run. repeat split; intros.
    + by apply no_key_url.
    + by apply no_key_file.
    + by apply no_key_multi.
  - intros Hkey Hcl Hc.
    split; [|split; [|split; [|split; [|split; [|split; [|split]]]]]].
    + intros. unfold result_of, run. rewrite run_url by done. by eexists.
    + intros. unfold result_of, run. rewrite run_file by done.
      destruct (open_rb_read w image_path); by eexists.
    + intros. unfold result_of, run. rewrite run_multi by done.
      destruct (expected_blocks w image_sources) as [[bs|e] evs]; by eexists.
    + intros e image_url prompt detail Hdown.
      apply returns_failure_intro. rewrite run_url by done.
      by rewrite Hdown.
    + intros e image_path prompt detail Hdown [data Hdata].
      apply returns_failure_intro. rewrite run_file by done.
      rewrite Hdata. cbv zeta. by rewrite Hdown.
    + intros e image_sources prompt Hdown Hall.
      apply returns_failure_intro. rewrite run_multi by done.
      destruct (expected_blocks_loads w image_sources Hall) as [bs [-> _]].
      cbv beta iota zeta. rewrite Hdown. reflexivity.
    + intros image_path prompt detail [e [He Hcls]]. split; [|done].
      apply returns_failure_intro. rewrite run_file by done.
      rewrite He. unfold encode_error. by rewrite Hcls.
    + intros pre image_path post prompt Hpre Hu Hno.
      apply returns_failure_intro. rewrite run_multi by done.
      rewrite (expected_blocks_stops w pre post image_path _ Hpre
                 (no_such_file_block w image_path Hu Hno)).
      reflexivity.
Qed.

Lemma C1_failures_captured_sample :
  returns_failure
    (analyze_image_from_url Sample.down "http://x/img.jpg" "Describe" "auto")
    "Connection error." /\
  returns_failure
    (analyze_image_from_file Sample.down "a.png" "Describe" "auto")
    "Connection error." /\
  returns_failure
    (analyze_multiple_images Sample.down ["a.png"; "http://x/b.jpg"] "Compare")
    "Connection error." /\
  returns_failure
    (analyze_image_from_file Sample.up "missing.png" "Describe" "auto")
    "Image file not found: missing.png" /\
  returns_failure
    (analyze_multiple_images Sample.up
       (["http://x/b.jpg"; "a.png"] ++ "missing.png" :: ["other.png"])
       "Compare")
    "Image file not found: missing.png" /\
  run (analyze_multiple_images Sample.no_key ["a.png"] "Compare")
  = (Raise missing_key, []).
Proof.
  assert (Hkd : has_key Sample.down) by reflexivity.
  assert (Hku : has_key Sample.up) by reflexivity.
  assert (Hcd : client_ok Sample.down) by reflexivity.
  assert (Hcu : client_ok Sample.up) by reflexivity.
  assert (Hpd : console_ok Sample.down) by (intros line; reflexivity).
  assert (Hpu : console_ok Sample.up) by (intros line; reflexivity).
  assert (Hnk : ~ has_key Sample.no_key) by (unfold has_key; simpl; discriminate).
  assert (Hsr : service_raises Sample.down Sample.connection_error)
    by (intros req; reflexivity).
  assert (Ha : forall w, open_rb_read w = Sample.files -> readable w "a.png")
    by (intros w0 Hw; exists [x89; x50; x4e; x47]; rewrite Hw; reflexivity).
  assert (Hm : no_such_file Sample.up "missing.png")
    by (eexists; split; reflexivity).
  destruct (C1_failures_captured_behind_credential Sample.down) as [_ Hd].
  destruct (Hd Hkd Hcd Hpd) as (_ & _ & _ & Hd1 & Hd2 & Hd3 & _).
  destruct (C1_failures_captured_behind_credential Sample.up) as [_ Hu].
  destruct (Hu Hku Hcu Hpu) as (_ & _ & _ & _ & _ & _ & Hu1 & Hu2).
  destruct (C1_failures_captured_behind_credential Sample.no_key) as [Hn _].
  destruct (Hn Hnk) as (_ & _ & Hn3).
  split; [exact (Hd1 _ _ _ _ Hsr)|].
  split; [exact (Hd2 _ _ _ _ Hsr (Ha Sample.down eq_refl))|].
  split.
  { apply (Hd3 _ _ _ Hsr).
    constructor; [right; exact (Ha Sample.down eq_refl)|].
    constructor; [left; reflexivity | constructor]. }
  split; [exact (proj1 (Hu1 "missing.png" _ _ Hm))|].
  split; [|exact (Hn3 _ _)].
  apply Hu2; [|reflexivity|exact Hm].
  constructor; [left; reflexivity|].
  constructor; [right; exact (Ha Sample.up eq_refl) | constructor].
Defined.

(** C2, as stated, fails: with no credential [analyze_image_from_file]
    does not return a record at all, so none with [success = False]; it
    raises [ValueError]. *)
Lemma C2_unset_credential_returns_nothing :
  result_of (analyze_image_from_file Sample.no_key
               "sentinel.png" "Describe" "auto") = Raise missing_key /\
  ~ (exists d,
       result_of (analyze_image_from_file Sample.no_key
                    "sentinel.png" "Describe" "auto") = Return d /\
       d !! "success" = Some (PyBool false)).
Proof.
  split; [reflexivity|].
  intros [d [H _]]. vm_compute in H. discriminate H.
Qed.

(** C2 (amended).  When no credential is configured,
    [analyze_image_from_file] raises [ValueError] instead of returning a
    record, and the credential check comes before any file I/O: for every
    path argument the trace of the call is empty, so no file read is
    attempted. *)
Theorem C2_credential_checked_before_file_read
    (w : world) (image_path prompt detail : string) :
  ~ has_key w ->
  result_of (analyze_image_from_file w image_path prompt detail)
  = Raise missing_key /\
  trace_of (analyze_image_from_file w image_path prompt detail) = [] /\
  forall path,
    EvRead path ∉ trace_of (analyze_image_from_file w image_path prompt detail).
Proof.
  intros Hno. unfold result_of, trace_of, run.
  rewrite no_key_file by done. simpl.
  repeat split. intros path Hin. by apply not_elem_of_nil in Hin.
Qed.

Lemma C2_credential_checked_sample :
  result_of (analyze_image_from_file Sample.no_key
               "sentinel.png" "Describe" "auto") = Raise missing_key /\
  trace_of (analyze_image_from_file Sample.no_key
              "sentinel.png" "Describe" "auto") = [] /\
  forall path,
    EvRead path ∉ trace_of (analyze_image_from_file Sample.no_key
                              "sentinel.png" "Describe" "auto").
Proof.
  apply (C2_credential_checked_before_file_read Sample.no_key
           "sentinel.png" "Describe" "auto").
  unfold has_key. simpl. discriminate.
Defined.

(* ===================================================================== *)
(** ** The requests *)
(* ===================================================================== *)

(** C8.  Every request sent by [analyze_image_from_url] or
    [analyze_image_from_file] has [max_tokens = 1000] and every request
    sent by [analyze_multiple_images] has [max_tokens = 1500], whatever
    the arguments and whatever the world: no parameter changes them. *)
Theorem C8_max_tokens_fixed (w : world) (req : request) :
  (forall image_url prompt detail,
     EvCreate req ∈ trace_of (analyze_image_from_url w image_url prompt detail) ->
     max_tokens req = 1000) /\
  (forall image_path prompt detail,
     EvCreate req ∈ trace_of (analyze_image_from_file w image_path prompt detail) ->
     max_tokens req = 1000) /\
  (forall image_sources prompt,
     EvCreate req ∈ trace_of (analyze_multiple_images w image_sources prompt) ->
     max_tokens req = 1500).
Proof.
  repeat split.
  - intros image_url prompt detail H.
    apply created_url in H as [_ ->]. reflexivity.
  - intros image_path prompt detail H.
    apply created_file in H as [_ [data [_ ->]]]. reflexivity.
  - intros image_sources prompt H.
    apply created_multi in H as [_ [bs [_ ->]]]. reflexivity.
Qed.

Lemma C8_max_tokens_sample :
  max_tokens (url_request "http://x/img.jpg" "Describe" "high") = 1000 /\
  max_tokens (file_request "a.png" "Describe" "low" [x89; x50; x4e; x47])
  = 1000 /\
  max_tokens
    (user_request
       [Text "Compare"; inline_block "a.png" [x89; x50; x4e; x47];
        ImageUrl {[ "url" := "http://x/b.jpg" ]}] 1500) = 1500.
Proof.
  split; [|split].
  - apply (proj1 (C8_max_tokens_fixed Sample.up _)
             "http://x/img.jpg" "Describe" "high").
    vm_compute. apply list_elem_of_here.
  - apply (proj1 (proj2 (C8_max_tokens_fixed Sample.up _))
             "a.png" "Describe" "low").
    vm_compute. apply list_elem_of_further, list_elem_of_here.
  - apply (proj2 (proj2 (C8_max_tokens_fixed Sample.up _))
             ["a.png"; "http://x/b.jpg"] "Compare").
    vm_compute. apply list_elem_of_further, list_elem_of_here.
Defined.

Lemma expected_block_for (w : world) (source : string) (b : content_block) :
  expected_block w source = Return b -> block_for w source b.
Proof.
  unfold expected_block, block_for.
  destruct (is_url source) eqn:Hu.
  - intros [= <-]. eexists. split; [reflexivity|].
    split; [reflexivity|]. split; [reflexivity|]. left. split; reflexivity.
  - destruct (open_rb_read w source) as [data|e]; [|discriminate].
    intros [= <-]. eexists. split; [reflexivity|].
    split; [reflexivity|]. split; [reflexivity|]. right.
    split; [reflexivity|]. exists data. split; reflexivity.
Qed.

(** C6.  With a credential, the client constructed and a console that
    prints, a call of [analyze_multiple_images] over [n] sources that load
    sends exactly one request, after reading its local sources; the
    content list of that request has [n + 1] elements: the text block with
    the prompt, then one image block per source, in order, each a dict
    with the only key ["url"], so without ["detail"].  Under the same
    conditions [analyze_image_from_url] sends exactly one request, and
    [analyze_image_from_file] on a readable path reads it and sends exactly
    one request, whose content is the text block and one image block whose
    dict sets ["detail"] to the [detail] argument.  Moreover, whatever the
    world, every request that these operations send has this layout. *)
Theorem C6_content_layout (w : world) :
  (has_key w -> client_ok w -> console_ok w ->
   (forall image_sources prompt,
      Forall (loads w) image_sources ->
      exists blocks,
        trace_of (analyze_multiple_images w image_sources prompt)
        = List.map EvRead (local_sources image_sources)
          ++ [EvCreate
                {| model := "gpt-4o";
                   messages :=
                     [ {| role := "user";
                          content := Text prompt :: blocks |} ];
                   max_tokens := 1500 |}] /\
        length (Text prompt :: blocks) = S (length image_sources) /\
        Forall2 (block_for w) image_sources blocks) /\
   (forall image_url prompt detail,
      exists d : gmap string string,
        trace_of (analyze_image_from_url w image_url prompt detail)
        = [EvCreate
             {| model := "gpt-4o";
                messages :=
                  [ {| role := "user";
                       content := [Text prompt; ImageUrl d] |} ];
                max_tokens := 1000 |}] /\
        dom d = ({[ "url"; "detail" ]} : gset string) /\
        d !! "detail" = Some detail /\ d !! "url" = Some image_url) /\
   (forall image_path prompt detail,
      readable w image_path ->
      exists d : gmap string string,
        trace_of (analyze_image_from_file w image_path prompt detail)
        = [EvRead image_path;
           EvCreate
             {| model := "gpt-4o";
                messages :=
                  [ {| role := "user";
                       content := [Text prompt; ImageUrl d] |} ];
                max_tokens := 1000 |}] /\
        dom d = ({[ "url"; "detail" ]} : gset string) /\
        d !! "detail" = Some detail /\ is_Some (d !! "url"))) /\
  (forall req image_sources prompt,
     EvCreate req ∈ trace_of (analyze_multiple_images w image_sources prompt) ->
     exists blocks,
       messages req = [ {| role := "user"; content := Text prompt :: blocks |} ] /\
       length (Text prompt :: blocks) = S (length image_sources) /\
       Forall2 (block_for w) image_sources blocks) /\
  (forall req image_url prompt detail,
     EvCreate req ∈ trace_of (analyze_image_from_url w image_url prompt detail) ->
     exists d : gmap string string,
       messages req = [ {| role := "user";
                           content := [Text prompt; ImageUrl d] |} ] /\
       d !! "detail" = Some detail /\ d !! "url" = Some image_url) /\
  (forall req image_path prompt detail,
     EvCreate req ∈ trace_of (analyze_image_from_file w image_path prompt detail) ->
     exists d : gmap string string,
       messages req = [ {| role := "user";
                           content := [Text prompt; ImageUrl d] |} ] /\
       d !! "detail" = Some detail /\ is_Some (d !! "url")).
Proof.
  split; [|split; [|split]].
  - intros Hk Hcl Hc. split; [|split].
    + intros image_sources prompt Hall.
      unfold trace_of, run. rewrite run_multi by done.
      destruct (expected_blocks_loads w image_sources Hall) as [bs [-> Hbs]].
      exists bs. split; [|split].
      * cbv beta iota zeta. simpl snd. by rewrite reads_of_local.
      * simpl. f_equal. symmetry. by eapply Forall2_length.
      * eapply Forall2_impl; [exact Hbs|]. apply expected_block_for.
    + intros image_url prompt detail.
      unfold trace_of, run. rewrite run_url by done.
      eexists. split; [reflexivity|]. by repeat split.
    + intros image_path prompt detail [data Hdata].
      unfold trace_of, run. rewrite run_file by done. rewrite Hdata.
      eexists. split; [reflexivity|].
      split; [reflexivity|]. split; [reflexivity | by eexists].
  - intros req image_sources prompt H.
    apply created_multi in H as [_ [bs [Hbs ->]]].
    exists bs. split; [reflexivity|]. split.
    + simpl. f_equal. symmetry. by eapply Forall2_length.
    + eapply Forall2_impl; [exact Hbs|]. apply expected_block_for.
  - intros req image_url prompt detail H.
    apply created_url in H as [_ ->].
    eexists. split; [reflexivity|]. split; reflexivity.
  - intros req image_path prompt detail H.
    apply created_file in H as [_ [data [_ ->]]].
    eexists. split; [reflexivity|]. split; [reflexivity | by eexists].
Qed.

Lemma C6_content_layout_sample :
  (exists blocks,
     trace_of (analyze_multiple_images Sample.up
                 ["a.png"; "http://x/b.jpg"] "Compare")
     = List.map EvRead (local_sources ["a.png"; "http://x/b.jpg"])
       ++ [EvCreate
             {| model := "gpt-4o";
                messages :=
                  [ {| role := "user";
                       content := Text "Compare" :: blocks |} ];
                max_tokens := 1500 |}] /\
     length (Text "Compare" :: blocks) = 3%nat /\
     Forall2 (block_for Sample.up) ["a.png"; "http://x/b.jpg"] blocks) /\
  (exists d : gmap string string,
     trace_of (analyze_image_from_url Sample.up
                 "http://x/img.jpg" "Describe" "high")
     = [EvCreate
          {| model := "gpt-4o";
             messages :=
               [ {| role := "user";
                    content := [Text "Describe"; ImageUrl d] |} ];
             max_tokens := 1000 |}] /\
     dom d = ({[ "url"; "detail" ]} : gset string) /\
     d !! "detail" = Some "high" /\ d !! "url" = Some "http://x/img.jpg") /\
  (exists d : gmap string string,
     trace_of (analyze_image_from_file Sample.up "a.png" "Describe" "low")
     = [EvRead "a.png";
        EvCreate
          {| model := "gpt-4o";
             messages :=
               [ {| role := "user";
                    content := [Text "Describe"; ImageUrl d] |} ];
             max_tokens := 1000 |}] /\
     dom d = ({[ "url"; "detail" ]} : gset string) /\
     d !! "detail" = Some "low" /\ is_Some (d !! "url")).
Proof.
  destruct (C6_content_layout Sample.up) as [Hsent _].
  destruct (Hsent eq_refl eq_refl (fun _ => eq_refl)) as (Hmulti & Hurl & Hfile).
  split; [|split].
  - apply (Hmulti ["a.png"; "http://x/b.jpg"] "Compare").
    constructor; [right; by eexists|].
    constructor; [left; reflexivity | constructor].
  - apply (Hurl "http://x/img.jpg" "Describe" "high").
  - apply (Hfile "a.png" "Describe" "low"). by eexists.
Defined.

(** C10.  With an empty source list the loop of
    [analyze_multiple_images] adds nothing and does not raise: the content
    list is the text block alone, and (with a credential, the client
    constructed and a console that prints) the one remote call is made
    with that request; its outcome is what the operation returns. *)
Theorem C10_empty_sources_still_call (w : world) (prompt : string) :
  has_key w -> client_ok w -> console_ok w ->
  let req := {| model := "gpt-4o";
                messages := [ {| role := "user"; content := [Text prompt] |} ];
                max_tokens := 1500 |} in
  run (append_images w [] [Text prompt]) = (Return [Text prompt], []) /\
  trace_of (analyze_multiple_images w [] prompt) = [EvCreate req] /\
  result_of (analyze_multiple_images w [] prompt)
  = Return (record_of multi_record (chat_completions_create w req)).
Proof.
  intros Hk Hcl Hc req. split; [reflexivity|].
  unfold trace_of, result_of, run. rewrite run_multi by done.
  split; reflexivity.
Qed.

Lemma C10_empty_sources_sample :
  let req := {| model := "gpt-4o";
                messages := [ {| role := "user"; content := [Text "Compare"] |} ];
                max_tokens := 1500 |} in
  run (append_images Sample.up [] [Text "Compare"])
  = (Return [Text "Compare"], []) /\
  trace_of (analyze_multiple_images Sample.up [] "Compare") = [EvCreate req] /\
  result_of (analyze_multiple_images Sample.up [] "Compare")
  = Return (record_of multi_record (chat_completions_create Sample.up req)).
Proof.
  apply (C10_empty_sources_still_call Sample.up "Compare");
    [reflexivity | reflexivity | intros line; reflexivity].
Defined.

(* ===================================================================== *)
(** ** The result records *)
(* ===================================================================== *)

Lemma failure_record_gated (shape : gmap string pyval -> Prop) (msg : string) :
  gated shape (failure_record msg).
Proof.
  split; [by right|]. split; [discriminate|]. intros _.
  split; [by eexists | repeat constructor].
Qed.

Lemma single_record_gated (r : response) :
  gated (single_success_shape r) (single_record r).
Proof.
  unfold single_record.
  destruct (usage r) as [u|] eqn:Hu;
    [destruct (choices r) as [|c cs] eqn:Hc|];
    try apply failure_record_gated.
  split; [by left|]. split; [|discriminate]. intros _.
  exists c, cs, u. rewrite Hu, Hc. repeat split.
Qed.

Lemma multi_record_gated (r : response) :
  gated (multi_success_shape r) (multi_record r).
Proof.
  unfold multi_record.
  destruct (choices r) as [|c cs] eqn:Hc;
    [|destruct (usage r) as [u|] eqn:Hu];
    try apply failure_record_gated.
  split; [by left|]. split; [|discriminate]. intros _.
  exists c, cs, u. rewrite Hu, Hc. repeat split.
Qed.

Lemma gated_impl (P Q : gmap string pyval -> Prop) (d : gmap string pyval) :
  (forall d', P d' -> Q d') -> gated P d -> gated Q d.
Proof.
  intros HPQ (H1 & H2 & H3). split; [exact H1|]. split; [|exact H3].
  intros H. apply HPQ, H2, H.
Qed.

(** C7, as stated, fails: a successful [analyze_multiple_images] returns
    [success = True] and yet the success-branch fields [model],
    [prompt_tokens] and [completion_tokens] are not populated. *)
Lemma C7_multi_success_lacks_model :
  exists d,
    result_of (analyze_multiple_images Sample.up ["http://x/b.jpg"] "Compare")
    = Return d /\
    d !! "success" = Some (PyBool true) /\
    d !! "model" = None /\
    d !! "prompt_tokens" = None /\
    d !! "completion_tokens" = None.
Proof. eexists. split; [reflexivity|]. repeat split. Qed.

(** C7 (amended).  Every record returned by the three operations has
    [success] either [True] or [False].  If [True], the call was answered
    by a response [r], [analysis] holds the message content of the first
    choice of [r], [tokens_used] its total token count, [error] is absent,
    and for the two single-image operations [model], [prompt_tokens] and
    [completion_tokens] hold the values of [r] as well (the multi-image
    operation populates only [analysis] and [tokens_used]).  If [False],
    [error] holds a message and none of [analysis], [model], [tokens_used],
    [prompt_tokens], [completion_tokens] is present. *)
Theorem C7_fields_gated_by_success (w : world) (d : gmap string pyval) :
  (forall image_url prompt detail,
     let call := analyze_image_from_url w image_url prompt detail in
     result_of call = Return d ->
     gated (fun d => exists r, answered w call r /\ single_success_shape r d) d) /\
  (forall image_path prompt detail,
     let call := analyze_image_from_file w image_path prompt detail in
     result_of call = Return d ->
     gated (fun d => exists r, answered w call r /\ single_success_shape r d) d) /\
  (forall image_sources prompt,
     let call := analyze_multiple_images w image_sources prompt in
     result_of call = Return d ->
     gated (fun d => exists r, answered w call r /\ multi_success_shape r d) d).
Proof.
  split; [|split].
  - intros image_url prompt detail call H.
    apply returned_url in H as [[req [Hreq ->]] | [e ->]];
      [|apply failure_record_gated].
    destruct (chat_completions_create w req) as [r|e] eqn:Hr; simpl;
      [|apply failure_record_gated].
    eapply gated_impl; [|apply single_record_gated].
    intros d' Hd'. exists r. split; [by exists req | exact Hd'].
  - intros image_path prompt detail call H.
    apply returned_file in H as [[req [Hreq ->]] | [e ->]];
      [|apply failure_record_gated].
    destruct (chat_completions_create w req) as [r|e] eqn:Hr; simpl;
      [|apply failure_record_gated].
    eapply gated_impl; [|apply single_record_gated].
    intros d' Hd'. exists r. split; [by exists req | exact Hd'].
  - intros image_sources prompt call H.
    apply returned_multi in H as [[req [Hreq ->]] | [e ->]];
      [|apply failure_record_gated].
    destruct (chat_completions_create w req) as [r|e] eqn:Hr; simpl;
      [|apply failure_record_gated].
    eapply gated_impl; [|apply multi_record_gated].
    intros d' Hd'. exists r. split; [by exists req | exact Hd'].
Qed.

Lemma C7_fields_gated_sample :
  gated (fun d =>
           exists r,
             answered Sample.up
               (analyze_image_from_url Sample.up
                  "http://x/img.jpg" "Describe" "high") r /\
             single_success_shape r d)
    (single_record Sample.reply) /\
  gated (fun d =>
           exists r,
             answered Sample.up
               (analyze_image_from_file Sample.up
                  "missing.png" "Describe" "auto") r /\
             single_success_shape r d)
    (failure_record "Image file not found: missing.png") /\
  gated (fun d =>
           exists r,
             answered Sample.down
               (analyze_multiple_images Sample.down
                  ["a.png"; "http://x/b.jpg"] "Compare") r /\
             multi_success_shape r d)
    (failure_record "Connection error.").
Proof.
  split; [|split].
  - apply (proj1 (C7_fields_gated_by_success Sample.up _)
             "http://x/img.jpg" "Describe" "high").
    reflexivity.
  - apply (proj1 (proj2 (C7_fields_gated_by_success Sample.up _))
             "missing.png" "Describe" "auto").
    reflexivity.
  - apply (proj2 (proj2 (C7_fields_gated_by_success Sample.down _))
             ["a.png"; "http://x/b.jpg"] "Compare").
    reflexivity.
Defined.

(** C9.  A successful [analyze_multiple_images] returns a record with
    exactly the keys [success], [analysis] and [tokens_used]: [model],
    [prompt_tokens] and [completion_tokens] are absent.  A successful
    single-image operation returns a record with all six keys. *)
Theorem C9_multi_success_keys (w : world) (d : gmap string pyval) :
  (forall image_sources prompt,
     result_of (analyze_multiple_images w image_sources prompt) = Return d ->
     d !! "success" = Some (PyBool true) ->
     dom d = ({[ "success"; "analysis"; "tokens_used" ]} : gset string) /\
     d !! "model" = None /\
     d !! "prompt_tokens" = None /\
     d !! "completion_tokens" = None) /\
  (forall image_url prompt detail,
     result_of (analyze_image_from_url w image_url prompt detail) = Return d ->
     d !! "success" = Some (PyBool true) ->
     dom d = ({[ "success"; "analysis"; "model"; "tokens_used";
                 "prompt_tokens"; "completion_tokens" ]} : gset string)) /\
  (forall image_path prompt detail,
     result_of (analyze_image_from_file w image_path prompt detail) = Return d ->
     d !! "success" = Some (PyBool true) ->
     dom d = ({[ "success"; "analysis"; "model"; "tokens_used";
                 "prompt_tokens"; "completion_tokens" ]} : gset string)).
Proof.
  assert (Hsingle : forall o,
            record_of single_record o !! "success" = Some (PyBool true) ->
            dom (record_of single_record o)
            = ({[ "success"; "analysis"; "model"; "tokens_used";
                  "prompt_tokens"; "completion_tokens" ]} : gset string)).
  { intros [r|e]; simpl; [|discriminate]. unfold single_record.
    destruct (usage r); [destruct (choices r)|]; try discriminate.
    intros _. reflexivity. }
  split; [|split].
  - intros image_sources prompt H Hs.
    apply returned_multi in H as [[req [_ ->]] | [e ->]]; [|discriminate].
    destruct (chat_completions_create w req) as [r|e]; simpl in *;
      [|discriminate].
    unfold multi_record in *.
    destruct (choices r); [|destruct (usage r)]; try discriminate.
    repeat split.
  - intros image_url prompt detail H Hs.
    apply returned_url in H as [[req [_ ->]] | [e ->]]; [|discriminate].
    by apply Hsingle.
  - intros image_path prompt detail H Hs.
    apply returned_file in H as [[req [_ ->]] | [e ->]]; [|discriminate].
    by apply Hsingle.
Qed.

Lemma C9_multi_success_keys_sample :
  (dom (multi_record Sample.reply)
   = ({[ "success"; "analysis"; "tokens_used" ]} : gset string) /\
   multi_record Sample.reply !! "model" = None /\
   multi_record Sample.reply !! "prompt_tokens" = None /\
   multi_record Sample.reply !! "completion_tokens" = None) /\
  dom (single_record Sample.reply)
  = ({[ "success"; "analysis"; "model"; "tokens_used";
        "prompt_tokens"; "completion_tokens" ]} : gset string).
Proof.
  split.
  - apply (proj1 (C9_multi_success_keys Sample.up _)
             ["a.png"; "http://x/b.jpg"] "Compare"); reflexivity.
  - apply (proj1 (proj2 (C9_multi_success_keys Sample.up _))
             "http://x/img.jpg" "Describe" "high"); reflexivity.
Defined.

(* ===================================================================== *)
(** ** Base64 *)
(* ===================================================================== *)

Section Base64Facts.

Import Base64.
Local Open Scope N_scope.

(** A property of the sixty-four digits, checked digit by digit. *)
Lemma below_64 (P : N -> bool) :
  forallb P (List.map N.of_nat (seq 0 64)) = true ->
  forall n, n < 64 -> P n = true.
Proof.
  intros H n Hn. rewrite forallb_forall in H. apply H.
  apply in_map_iff. exists (N.to_nat n). split; [lia|].
  apply in_seq. lia.
Qed.

Lemma digit_value (n : N) : n < 64 -> value (digit n) = Some n.
Proof.
  intros Hn.
  apply (below_64 (fun n => match value (digit n) with
                            | Some m => m =? n
                            | None => false
                            end)) in Hn; [|vm_compute; reflexivity].
  destruct (value (digit n)) as [m|]; [|discriminate].
  apply N.eqb_eq in Hn. by rewrite Hn.
Qed.

Lemma digit_not_pad (n : N) : n < 64 -> Ascii.eqb (digit n) pad = false.
Proof.
  intros Hn.
  apply (below_64 (fun n => negb (Ascii.eqb (digit n) pad))) in Hn;
    [|vm_compute; reflexivity].
  by apply negb_true_iff in Hn.
Qed.

Lemma digit_in_alphabet (n : N) :
  n < 64 -> In (digit n) (list_ascii_of_string alphabet).
Proof.
  intros Hn.
  apply (below_64 (fun n => existsb (Ascii.eqb (digit n))
                              (list_ascii_of_string alphabet))) in Hn;
    [|vm_compute; reflexivity].
  apply existsb_exists in Hn as [c [Hc E]].
  apply Ascii.eqb_eq in E. by rewrite E.
Qed.

Lemma sextet_div (g k : N) : sextet g k = (g / 2 ^ (6 * k)) mod 64.
Proof.
  unfold sextet. change 63 with (N.ones 6).
  by rewrite N.land_ones, N.shiftr_div_pow2.
Qed.

Lemma sextet_lt (g k : N) : sextet g k < 64.
Proof. rewrite sextet_div. apply N.mod_lt. discriminate. Qed.

Lemma group_value (a b c : byte) :
  group a b c = Byte.to_N a * 65536 + Byte.to_N b * 256 + Byte.to_N c.
Proof. unfold group. by rewrite !N.shiftl_mul_pow2. Qed.

Lemma group_lt (a b c : byte) : group a b c < 2 ^ 24.
Proof.
  rewrite group_value.
  pose proof (Byte.to_N_bounded a). pose proof (Byte.to_N_bounded b).
  pose proof (Byte.to_N_bounded c). change (2 ^ 24) with 16777216. lia.
Qed.

(** The four sextets of a 24-bit group put together give the group back. *)
Lemma sextets_recompose (g : N) :
  g < 2 ^ 24 ->
  N.shiftl (sextet g 3) 18 + N.shiftl (sextet g 2) 12
  + N.shiftl (sextet g 1) 6 + sextet g 0 = g.
Proof.
  intros Hg. rewrite !sextet_div, !N.shiftl_mul_pow2.
  change (2 ^ (6 * 3)) with (64 * 64 * 64).
  change (2 ^ (6 * 2)) with (64 * 64).
  change (2 ^ (6 * 1)) with 64. change (2 ^ (6 * 0)) with 1.
  change (2 ^ 18) with 262144. change (2 ^ 12) with 4096.
  change (2 ^ 6) with 64. change (2 ^ 24) with 16777216 in Hg.
  rewrite N.div_1_r, <- !N.Div0.div_div.
  pose proof (N.div_mod' g 64) as E0.
  pose proof (N.div_mod' (g / 64) 64) as E1.
  pose proof (N.div_mod' (g / 64 / 64) 64) as E2.
  pose proof (N.mod_lt g 64 ltac:(discriminate)) as B0.
  pose proof (N.mod_lt (g / 64) 64 ltac:(discriminate)) as B1.
  pose proof (N.mod_lt (g / 64 / 64) 64 ltac:(discriminate)) as B2.
  assert (B3 : g / 64 / 64 / 64 < 64).
  { rewrite !N.Div0.div_div. apply N.Div0.div_lt_upper_bound. exact Hg. }
  rewrite (N.mod_small _ _ B3).
  set (m0 := g mod 64) in *. set (m1 := (g / 64) mod 64) in *.
  set (m2 := (g / 64 / 64) mod 64) in *.
  set (q1 := g / 64) in *. set (q2 := q1 / 64) in *. set (q3 := q2 / 64) in *.
  clearbody m0 m1 m2 q3. lia.
Qed.

Lemma sextet_0_of_pair (a b : byte) : sextet (group a b x00) 0 = 0.
Proof.
  rewrite sextet_div, group_value. change (2 ^ (6 * 0)) with 1.
  rewrite N.div_1_r. change (Byte.to_N x00) with 0.
  symmetry. apply N.mod_unique with (Byte.to_N a * 1024 + Byte.to_N b * 4); lia.
Qed.

Lemma sextet_1_of_single (a : byte) : sextet (group a x00 x00) 1 = 0.
Proof.
  rewrite sextet_div, group_value. change (2 ^ (6 * 1)) with 64.
  change (Byte.to_N x00) with 0.
  assert (E : (Byte.to_N a * 65536 + 0 * 256 + 0) / 64 = Byte.to_N a * 1024)
    by (symmetry; apply N.div_unique with 0; lia).
  rewrite E. symmetry. apply N.mod_unique with (Byte.to_N a * 16); lia.
Qed.

(** The three octets of a group are the bytes it was made of. *)
Lemma octets_of_group (a b c : byte) :
  octet (group a b c) 2 = a /\ octet (group a b c) 1 = b /\
  octet (group a b c) 0 = c.
Proof.
  unfold octet. change 255 with (N.ones 8).
  rewrite !N.land_ones, !N.shiftr_div_pow2, group_value.
  pose proof (Byte.to_N_bounded a) as Ha.
  pose proof (Byte.to_N_bounded b) as Hb.
  pose proof (Byte.to_N_bounded c) as Hc.
  change (2 ^ (8 * 2)) with 65536. change (2 ^ (8 * 1)) with 256.
  change (2 ^ (8 * 0)) with 1. change (2 ^ 8) with 256.
  set (x := Byte.to_N a) in *. set (y := Byte.to_N b) in *.
  set (z := Byte.to_N c) in *.
  assert (D2 : (x * 65536 + y * 256 + z) / 65536 = x)
    by (symmetry; apply N.div_unique with (y * 256 + z); lia).
  assert (D1 : (x * 65536 + y * 256 + z) / 256 = x * 256 + y)
    by (symmetry; apply N.div_unique with z; lia).
  rewrite D2, D1, N.div_1_r.
  assert (E2 : x mod 256 = x) by (apply N.mod_small; lia).
  assert (E1 : (x * 256 + y) mod 256 = y)
    by (symmetry; apply N.mod_unique with x; lia).
  assert (E0 : (x * 65536 + y * 256 + z) mod 256 = z)
    by (symmetry; apply N.mod_unique with (x * 256 + y); lia).
  rewrite E2, E1, E0. subst x y z. by rewrite !Byte.of_to_N.
Qed.

(** Unfolding the encoder by one group. *)
Lemma b64encode_group (a b c : byte) (r : list byte) :
  b64encode (a :: b :: c :: r) =
    let g := group a b c in
    String (digit (sextet g 3)) (String (digit (sextet g 2))
      (String (digit (sextet g 1)) (String (digit (sextet g 0))
        (b64encode r)))).
Proof. reflexivity. Qed.

(** Induction on a list of bytes by groups of three. *)
Lemma groups_ind (P : list byte -> Prop) :
  P [] -> (forall a, P [a]) -> (forall a b, P [a; b]) ->
  (forall a b c r, P r -> P (a :: b :: c :: r)) ->
  forall s, P s.
Proof.
  intros H0 H1 H2 H3.
  assert (H : forall s, P s /\ (forall a, P (a :: s)) /\
                        (forall a b, P (a :: b :: s))).
  { induction s as [|c s (IH0 & IH1 & IH2)].
    - by repeat split.
    - split; [apply IH1|]. split; [intros a; apply IH2|].
      intros a b. by apply H3. }
  intros s. apply H.
Qed.

(** Decoding what was encoded gives the bytes back. *)
Lemma b64decode_b64encode (s : list byte) : b64decode (b64encode s) = Some s.
Proof.
  induction s as [|a|a b|a b c r IH] using groups_ind.
  - reflexivity.
  - cbn [b64encode b64decode].
    rewrite !digit_value by apply sextet_lt.
    change (Ascii.eqb pad pad) with true. cbv iota.
    pose proof (sextets_recompose _ (group_lt a x00 x00)) as E.
    rewrite sextet_1_of_single, (sextet_0_of_pair a x00) in E.
    change (N.shiftl 0 6) with 0 in E. rewrite !N.add_0_r in E.
    rewrite E. by destruct (octets_of_group a x00 x00) as (-> & _ & _).
  - cbn [b64encode b64decode].
    rewrite !digit_value by apply sextet_lt.
    rewrite digit_not_pad by apply sextet_lt.
    change (Ascii.eqb pad pad) with true. cbv iota.
    pose proof (sextets_recompose _ (group_lt a b x00)) as E.
    rewrite sextet_0_of_pair, N.add_0_r in E.
    rewrite E. by destruct (octets_of_group a b x00) as (-> & -> & _).
  - rewrite b64encode_group. cbv zeta. cbn [b64decode].
    rewrite !digit_value by apply sextet_lt.
    rewrite !digit_not_pad by apply sextet_lt.
    rewrite IH, (sextets_recompose _ (group_lt a b c)).
    by destruct (octets_of_group a b c) as (-> & -> & ->).
Qed.

(** The encoding uses the digits of the standard alphabet and ['='] only;
    in particular it has no line break. *)
Lemma b64encode_alphabet (s : list byte) (c : ascii) :
  In c (list_ascii_of_string (b64encode s)) ->
  In c (list_ascii_of_string alphabet) \/ c = pad.
Proof.
  induction s as [|a|a b|a b d r IH] using groups_ind.
  - intros [].
  - cbn [b64encode list_ascii_of_string In].
    intros [<-|[<-|[<-|[<-|[]]]]]; auto using digit_in_alphabet, sextet_lt.
  - cbn [b64encode list_ascii_of_string In].
    intros [<-|[<-|[<-|[<-|[]]]]]; auto using digit_in_alphabet, sextet_lt.
  - rewrite b64encode_group. cbn [list_ascii_of_string In].
    intros [<-|[<-|[<-|[<-|H]]]]; auto using digit_in_alphabet, sextet_lt.
Qed.

(** The test vectors of RFC 4648, section 10. *)
Example b64encode_rfc4648 :
  List.map (fun s => b64encode (list_byte_of_string s))
    [""; "f"; "fo"; "foo"; "foob"; "fooba"; "foobar"]
  = [""; "Zg=="; "Zm8="; "Zm9v"; "Zm9vYg=="; "Zm9vYmE="; "Zm9vYmFy"].
Proof. reflexivity. Qed.

(** Four characters for every started group of three bytes. *)
Lemma b64encode_length (s : list byte) :
  N.of_nat (String.length (b64encode s))
  = 4 * ((N.of_nat (List.length s) + 2) / 3).
Proof.
  induction s as [|a|a b|a b c r IH] using groups_ind; try reflexivity.
  rewrite b64encode_group. cbn [String.length List.length].
  rewrite !Nat2N.inj_succ, IH.
  replace (N.succ (N.succ (N.succ (N.of_nat (List.length r)))) + 2)
    with (1 * 3 + (N.of_nat (List.length r) + 2)) by lia.
  rewrite N.div_add_l by discriminate. lia.
Qed.

End Base64Facts.

(* ===================================================================== *)
(** ** The inline image reference *)
(* ===================================================================== *)

(** C3.  For a readable local file (and a call that gets to its request:
    credential set, client constructed, console printing) the image
    reference placed in the request is "data:" ++ media type ++ ";base64," ++ the base64 text of
    the file's whole contents, got by one read of the file: by
    [analyze_image_from_file], and by [analyze_multiple_images] for a
    local source.  The base64 text is the standard one: decoding it gives
    the contents back, its characters are digits of the standard alphabet
    or ['='] (no line break), and it has four characters for every started
    group of three bytes. *)
Theorem C3_inline_image_reference
    (w : world) (image_path prompt detail : string) (data : list byte) :
  has_key w -> client_ok w -> console_ok w ->
  open_rb_read w image_path = Return data ->
  let base64_data := Base64.b64encode data in
  let reference :=
    "data:" +:+ mime_type_of image_path +:+ ";base64," +:+ base64_data in
  trace_of (analyze_image_from_file w image_path prompt detail)
  = [ EvRead image_path;
      EvCreate
        {| model := "gpt-4o";
           messages :=
             [ {| role := "user";
                  content :=
                    [ Text prompt;
                      ImageUrl {[ "url" := reference;
                                  "detail" := detail ]} ] |} ];
           max_tokens := 1000 |} ] /\
  (is_url image_path = false ->
   run (image_block w image_path)
   = (Return (ImageUrl {[ "url" := reference ]}), [EvRead image_path])) /\
  Base64.b64decode base64_data = Some data /\
  (forall c, In c (list_ascii_of_string base64_data) ->
             In c (list_ascii_of_string Base64.alphabet) \/ c = "="%char) /\
  N.of_nat (String.length base64_data)
  = (4 * ((N.of_nat (List.length data) + 2) / 3))%N.
Proof.
  intros Hk Hcl Hc Hdata base64_data reference.
  split; [|split; [|split; [|split]]].
  - unfold trace_of, run. rewrite run_file by done. by rewrite Hdata.
  - intros Hu. unfold run. rewrite image_block_run.
    unfold expected_block, reads_of. by rewrite Hu, Hdata.
  - apply b64decode_b64encode.
  - apply b64encode_alphabet.
  - apply b64encode_length.
Qed.

Lemma C3_inline_image_reference_sample :
  trace_of (analyze_image_from_file Sample.up "a.png" "Describe" "high")
  = [ EvRead "a.png";
      EvCreate
        {| model := "gpt-4o";
           messages :=
             [ {| role := "user";
                  content :=
                    [ Text "Describe";
                      ImageUrl {[ "url" := "data:image/png;base64,iVBORw==";
                                  "detail" := "high" ]} ] |} ];
           max_tokens := 1000 |} ] /\
  run (image_block Sample.up "a.png")
  = (Return (ImageUrl {[ "url" := "data:image/png;base64,iVBORw==" ]}),
     [EvRead "a.png"]).
Proof.
  destruct (C3_inline_image_reference Sample.up "a.png" "Describe" "high"
              [x89; x50; x4e; x47] eq_refl eq_refl (fun _ => eq_refl) eq_refl)
    as (H1 & H2 & _).
  split; [exact H1 | exact (H2 eq_refl)].
Defined.

(* ===================================================================== *)
(** ** Strings and paths *)
(* ===================================================================== *)

Section StringFacts.

Import PyStr.

Lemma append_nil (s : string) : "" +:+ s = s.
Proof. reflexivity. Qed.

Lemma append_cons (c : ascii) (s1 s2 : string) :
  String c s1 +:+ s2 = String c (s1 +:+ s2).
Proof. reflexivity. Qed.

(** [startswith] is about the very characters of the prefix. *)
Lemma startswith_spec (s p : string) :
  startswith s p = true <-> exists rest, s = p +:+ rest.
Proof.
  unfold startswith. revert s.
  induction p as [|c p IH]; intros s.
  - split; [intros _; by exists s | intros _; by destruct s].
  - destruct s as [|a s]; simpl.
    { split; [done | intros [rest H]; discriminate]. }
    destruct (Ascii.ascii_dec c a) as [->|Hne].
    + rewrite IH. split; intros [rest H]; exists rest.
      * rewrite append_cons. by f_equal.
      * rewrite append_cons in H. by injection H.
    + split; [done|]. intros [rest H]. rewrite append_cons in H. congruence.
Qed.

Lemma length_app (s1 s2 : string) :
  String.length (s1 +:+ s2) = (String.length s1 + String.length s2)%nat.
Proof.
  induction s1 as [|c s1 IH]; [done|].
  rewrite append_cons. simpl. by rewrite IH.
Qed.

Lemma contains_app (c : ascii) (s1 s2 : string) :
  contains c (s1 +:+ s2) = contains c s1 || contains c s2.
Proof.
  induction s1 as [|a s1 IH]; [done|].
  rewrite append_cons. simpl. by rewrite IH, orb_assoc.
Qed.

Lemma rfind_absent (c : ascii) (s : string) :
  contains c s = false -> rfind c s = -1.
Proof.
  induction s as [|a s IH]; simpl; [done|].
  intros H. apply orb_false_iff in H as [Ha Hs].
  by rewrite (IH Hs), Ha.
Qed.

(** The index of the last occurrence. *)
Lemma rfind_last (c : ascii) (stem ext : string) :
  contains c ext = false ->
  rfind c (stem +:+ String c ext) = len stem.
Proof.
  intros Hext. unfold len.
  induction stem as [|a stem IH]; [rewrite append_nil|rewrite append_cons];
    simpl.
  - by rewrite (rfind_absent _ _ Hext), Ascii.eqb_refl.
  - rewrite IH. destruct (0 <=? _) eqn:E; [lia|].
    apply Z.leb_gt in E. lia.
Qed.

Lemma drop_app (s1 s2 : string) : drop (String.length s1) (s1 +:+ s2) = s2.
Proof.
  induction s1 as [|a s1 IH]; [by destruct s2|].
  rewrite append_cons. exact IH.
Qed.

Lemma split_nonempty (sep : ascii) (s : string) : split sep s <> [].
Proof.
  induction s as [|c s IH]; simpl; [done|].
  destruct (Ascii.eqb c sep); [done|]. by destruct (split sep s).
Qed.

Lemma split_absent (sep : ascii) (s : string) :
  contains sep s = false -> split sep s = [s].
Proof.
  induction s as [|c s IH]; simpl; [done|].
  intros H. apply orb_false_iff in H as [Hc Hs].
  by rewrite Hc, (IH Hs).
Qed.

Lemma split_app (sep : ascii) (s1 s2 : string) :
  split sep (s1 +:+ String sep s2) = split sep s1 ++ split sep s2.
Proof.
  induction s1 as [|c s1 IH]; [rewrite append_nil|rewrite append_cons];
    simpl.
  - by rewrite Ascii.eqb_refl.
  - destruct (Ascii.eqb c sep); [by rewrite IH|].
    rewrite IH. pose proof (split_nonempty sep s1).
    by destruct (split sep s1).
Qed.

End StringFacts.

Section PathFacts.

Import PyStr PurePath.

(** The final component of [name] and of [dir/name]. *)
Lemma name_of (dir name' path : string) :
  contains "/" name' = false -> keep_part name' = true ->
  path = name' \/ path = dir +:+ "/" +:+ name' ->
  name path = name'.
Proof.
  intros Hsep Hkeep [-> | ->]; unfold name, parts.
  - rewrite split_absent by done. simpl. by rewrite Hkeep.
  - change (dir +:+ "/" +:+ name') with (dir +:+ String "/" name').
    rewrite split_app, (split_absent _ name') by done.
    rewrite List.filter_app. simpl. rewrite Hkeep. apply List.last_last.
Qed.

Lemma keep_part_long (x : string) :
  (2 <= String.length x)%nat -> keep_part x = true.
Proof.
  intros H. unfold keep_part.
  assert (E1 : String.eqb x "" = false)
    by (apply String.eqb_neq; intros E; rewrite E in H; simpl in H; lia).
  assert (E2 : String.eqb x "." = false)
    by (apply String.eqb_neq; intros E; rewrite E in H; simpl in H; lia).
  by rewrite E1, E2.
Qed.

Lemma keep_part_stem_ext (stem e : string) :
  stem <> "" -> keep_part (stem +:+ "." +:+ e) = true.
Proof.
  intros Hs. apply keep_part_long. rewrite !length_app. simpl.
  destruct stem; [done | simpl; lia].
Qed.

(** The suffix of [stem.e] and of [dir/stem.e]. *)
Lemma suffix_of (dir stem e path : string) :
  stem <> "" -> e <> "" ->
  contains "/" stem = false -> contains "/" e = false ->
  contains "." e = false ->
  path = stem +:+ "." +:+ e \/ path = dir +:+ "/" +:+ stem +:+ "." +:+ e ->
  suffix path = "." +:+ e.
Proof.
  intros Hstem He Hs1 Hs2 Hdot Hpath. unfold suffix.
  rewrite (name_of dir (stem +:+ "." +:+ e) path);
    [|by rewrite !contains_app, Hs1, Hs2|by apply keep_part_stem_ext|done].
  change (stem +:+ "." +:+ e) with (stem +:+ String "." e).
  rewrite rfind_last by done. unfold len.
  rewrite length_app. simpl String.length.
  assert (0 < String.length stem)%nat by (destruct stem; [done | simpl; lia]).
  assert (0 < String.length e)%nat by (destruct e; [done | simpl; lia]).
  assert (E1 : (0 <? Z.of_nat (String.length stem)) = true)
    by (apply Z.ltb_lt; lia).
  assert (E2 : (Z.of_nat (String.length stem)
                <? Z.of_nat (String.length stem + S (String.length e)) - 1)
               = true) by (apply Z.ltb_lt; lia).
  rewrite E1, E2. simpl andb. cbv iota. rewrite Nat2Z.id. apply drop_app.
Qed.

(** No dot in the final component: no suffix. *)
Lemma suffix_missing (dir name' path : string) :
  name' <> "" ->
  contains "/" name' = false -> contains "." name' = false ->
  path = name' \/ path = dir +:+ "/" +:+ name' ->
  suffix path = "".
Proof.
  intros Hne Hsep Hdot Hpath. unfold suffix.
  rewrite (name_of dir name' path); [|done| |done].
  - by rewrite rfind_absent.
  - unfold keep_part. destruct name' as [|a n]; [done|]. simpl.
    simpl in Hdot. apply orb_false_iff in Hdot as [Ha _].
    rewrite Ha. done.
Qed.

End PathFacts.

(* ===================================================================== *)
(** ** Telling URLs from paths *)
(* ===================================================================== *)

Lemma is_url_spec (source : string) :
  is_url source = true <->
  exists rest, source = "http://" +:+ rest \/ source = "https://" +:+ rest.
Proof.
  unfold is_url. rewrite orb_true_iff, !startswith_spec.
  split.
  - intros [[rest H] | [rest H]]; exists rest; auto.
  - intros [rest [H | H]]; [left | right]; by exists rest.
Qed.

Lemma expected_blocks_first_read (w : world) (source : string)
    (post : list string) :
  is_url source = false ->
  exists rest, snd (expected_blocks w (source :: post)) = EvRead source :: rest.
Proof.
  intros Hu. simpl. unfold reads_of. rewrite Hu.
  destruct (expected_block w source) as [b|e]; [|by eexists].
  destruct (expected_blocks w post) as [[bs|e] evs]; by eexists.
Qed.

(** C4.  A source is taken as a URL exactly when it begins with the
    characters "http://" or "https://", as written (lower case).  For such
    a source the loop of [analyze_multiple_images] appends a block whose
    ["url"] is the source unchanged, without any I/O; for every other
    source, an upper-case scheme included, it first attempts to read the
    source as a file.  In the whole operation: a path that the loop
    reaches (credential set, client constructed, console printing, earlier
    sources loading) is read, and the block of a URL sits at the URL's
    position in the request. *)
Theorem C4_url_or_path (w : world) (source : string) :
  (is_url source = true <->
   exists rest,
     source = "http://" +:+ rest \/ source = "https://" +:+ rest) /\
  (is_url source = true ->
   forall t,
     image_block w source t = (Return (ImageUrl {[ "url" := source ]}), t)) /\
  (is_url source = false ->
   forall t, exists o,
     image_block w source t = (o, t ++ [EvRead source])) /\
  (is_url source = false ->
   forall pre post prompt,
     has_key w -> client_ok w -> console_ok w -> Forall (loads w) pre ->
     EvRead source
       ∈ trace_of (analyze_multiple_images w (pre ++ source :: post) prompt)) /\
  (is_url source = true ->
   forall pre post prompt req,
     EvCreate req
       ∈ trace_of (analyze_multiple_images w (pre ++ source :: post) prompt) ->
     exists blocks,
       messages req = [ {| role := "user"; content := blocks |} ] /\
       blocks !! S (length pre) = Some (ImageUrl {[ "url" := source ]})).
Proof.
  split; [apply is_url_spec|]. split; [|split; [|split]].
  - intros Hu t. rewrite image_block_run.
    unfold expected_block, reads_of. by rewrite Hu, app_nil_r.
  - intros Hu t. rewrite image_block_run. unfold reads_of. rewrite Hu.
    by eexists.
  - intros Hu pre post prompt Hk Hcl Hc Hpre.
    unfold trace_of, run. rewrite run_multi by done.
    assert (Hin : EvRead source
                    ∈ snd (expected_blocks w (pre ++ source :: post))).
    { rewrite expected_blocks_app.
      destruct (expected_blocks_loads w pre Hpre) as [bs [-> _]].
      destruct (expected_blocks_first_read w source post Hu) as [rest Hr].
      destruct (expected_blocks w (source :: post)) as [[bs'|e] evs];
        simpl in *; subst evs; apply elem_of_app; right;
        apply list_elem_of_here. }
    destruct (expected_blocks w (pre ++ source :: post)) as [[bs|e] evs];
      simpl in *; [|exact Hin].
    apply elem_of_app. by left.
  - intros Hu pre post prompt req H.
    apply created_multi in H as [_ [bs [Hbs ->]]].
    apply Forall2_app_inv_l in Hbs as (bs1 & bs2 & Hpre & Hrest & ->).
    apply Forall2_cons_inv_l in Hrest as (b & bs3 & Hb & _ & ->).
    unfold expected_block in Hb. rewrite Hu in Hb. injection Hb as <-.
    eexists. split; [reflexivity|].
    change (Text prompt :: bs1 ++ ImageUrl {[ "url" := source ]} :: bs3)
      with ((Text prompt :: bs1) ++ ImageUrl {[ "url" := source ]} :: bs3).
    apply list_lookup_middle. simpl. f_equal. by eapply Forall2_length.
Qed.

Lemma C4_url_or_path_sample :
  EvRead "HTTP://x/img.jpg"
    ∈ trace_of (analyze_multiple_images Sample.up
                  (["http://x/b.jpg"; "a.png"]
                   ++ "HTTP://x/img.jpg" :: ["later.png"]) "Compare") /\
  image_block Sample.up "https://x/b.jpg" []
  = (Return (ImageUrl {[ "url" := "https://x/b.jpg" ]}), []) /\
  (exists blocks,
     messages
       (user_request
          [Text "Compare"; inline_block "a.png" [x89; x50; x4e; x47];
           ImageUrl {[ "url" := "https://x/b.jpg" ]}] 1500)
     = [ {| role := "user"; content := blocks |} ] /\
     blocks !! 2%nat = Some (ImageUrl {[ "url" := "https://x/b.jpg" ]})).
Proof.
  destruct (C4_url_or_path Sample.up "HTTP://x/img.jpg")
    as (_ & _ & _ & Hread & _).
  destruct (C4_url_or_path Sample.up "https://x/b.jpg")
    as (_ & Hblock & _ & _ & Hplace).
  split; [|split].
  - apply (Hread eq_refl);
      [reflexivity | reflexivity | intros line; reflexivity |].
    constructor; [left; reflexivity|].
    constructor; [right; by eexists | constructor].
  - exact (Hblock eq_refl []).
  - apply (Hplace eq_refl ["a.png"] [] "Compare").
    vm_compute. apply list_elem_of_further, list_elem_of_here.
Defined.

(* ===================================================================== *)
(** ** The media type *)
(* ===================================================================== *)

Lemma mime_types_lookup (k : string) :
  mime_types !! k =
    if decide (".jpg" = k) then Some "image/jpeg"
    else if decide (".jpeg" = k) then Some "image/jpeg"
    else if decide (".png" = k) then Some "image/png"
    else if decide (".gif" = k) then Some "image/gif"
    else if decide (".webp" = k) then Some "image/webp"
    else None.
Proof.
  unfold mime_types. rewrite !lookup_insert, lookup_singleton.
  reflexivity.
Qed.

(** C5.  The media type of a path is looked up in the table by the
    lower-cased extension of the path: [.jpg] and [.jpeg] give
    [image/jpeg], [.png] gives [image/png], [.gif] gives [image/gif] and
    [.webp] gives [image/webp]; any other extension, or none, gives
    [image/jpeg].  The result is always one of these four values.  For a
    path [stem.e] or [dir/stem.e] the lower-cased extension is ["."]
    followed by [e] in lower case, whatever the letter case of [e]; for a
    final component without a dot it is empty. *)
Theorem C5_media_type_by_extension (image_path : string) :
  let ext := PyStr.lower (PurePath.suffix image_path) in
  (ext = ".jpg" \/ ext = ".jpeg" -> mime_type_of image_path = "image/jpeg") /\
  (ext = ".png" -> mime_type_of image_path = "image/png") /\
  (ext = ".gif" -> mime_type_of image_path = "image/gif") /\
  (ext = ".webp" -> mime_type_of image_path = "image/webp") /\
  (ext ∉ [".jpg"; ".jpeg"; ".png"; ".gif"; ".webp"] ->
   mime_type_of image_path = "image/jpeg") /\
  mime_type_of image_path
    ∈ ["image/jpeg"; "image/png"; "image/gif"; "image/webp"] /\
  (forall dir stem e,
     stem <> "" -> e <> "" ->
     PyStr.contains "/" stem = false -> PyStr.contains "/" e = false ->
     PyStr.contains "." e = false ->
     image_path = stem +:+ "." +:+ e \/
     image_path = dir +:+ "/" +:+ stem +:+ "." +:+ e ->
     ext = "." +:+ PyStr.lower e) /\
  (forall dir name,
     name <> "" ->
     PyStr.contains "/" name = false -> PyStr.contains "." name = false ->
     image_path = name \/ image_path = dir +:+ "/" +:+ name ->
     ext = "").
Proof.
  intros ext. unfold mime_type_of. fold ext.
  split; [|split; [|split; [|split; [|split; [|split; [|split]]]]]].
  - by intros [-> | ->].
  - by intros ->.
  - by intros ->.
  - by intros ->.
  - intros Hnot. rewrite mime_types_lookup.
    repeat case_decide; try reflexivity; exfalso; apply Hnot; subst ext;
      match goal with H : _ = _ |- _ => rewrite <- H end;
      repeat first [apply list_elem_of_here | apply list_elem_of_further].
  - rewrite mime_types_lookup.
    repeat case_decide; simpl;
      repeat first [apply list_elem_of_here | apply list_elem_of_further].
  - intros dir stem e Hstem He Hs1 Hs2 Hdot Hpath. subst ext.
    by rewrite (suffix_of dir stem e image_path).
  - intros dir name Hne Hsep Hdot Hpath. subst ext.
    by rewrite (suffix_missing dir name image_path).
Qed.

Lemma C5_media_type_sample :
  mime_type_of "photos/Cat.PNG" = "image/png" /\
  mime_type_of "scan.JpEg" = "image/jpeg" /\
  mime_type_of "shots/frame.bmp" = "image/jpeg" /\
  PyStr.lower (PurePath.suffix "notes/README") = "".
Proof.
  destruct (C5_media_type_by_extension "photos/Cat.PNG")
    as (_ & Hpng & _ & _ & _ & _ & Hext & _).
  destruct (C5_media_type_by_extension "scan.JpEg")
    as (Hjpeg & _ & _ & _ & _ & _ & Hext' & _).
  destruct (C5_media_type_by_extension "shots/frame.bmp")
    as (_ & _ & _ & _ & Hother & _ & Hext'' & _).
  destruct (C5_media_type_by_extension "notes/README")
    as (_ & _ & _ & _ & _ & _ & _ & Hnone).
  split; [|split; [|split]].
  - apply Hpng. apply (Hext "photos" "Cat" "PNG"); try done. by right.
  - apply Hjpeg. right. apply (Hext' "" "scan" "JpEg"); try done. by left.
  - apply Hother.
    rewrite (Hext'' "shots" "frame" "bmp"); try done; [|by right].
    intros H. vm_compute in H.
    repeat (apply elem_of_cons in H as [H|H]; [discriminate|]).
    by apply not_elem_of_nil in H.
  - apply (Hnone "notes" "README"); try done. by right.
Defined.

(* ===================================================================== *)
(** ** The order and number of the I/O steps *)
(* ===================================================================== *)

Lemma reads_in_app (t1 t2 : list event) :
  reads_in (t1 ++ t2) = reads_in t1 ++ reads_in t2.
Proof.
  induction t1 as [|[path|req] t1 IH]; simpl; [done| |done].
  by rewrite IH.
Qed.

Lemma reads_in_reads (paths : list string) :
  reads_in (List.map EvRead paths) = paths.
Proof. induction paths as [|p paths IH]; simpl; [done | by rewrite IH]. Qed.

(** The loop reads local sources only, in the order of the list, and
    nothing after the first read that raises. *)
Lemma expected_blocks_reads (w : world) (srcs : list string) :
  exists paths,
    snd (expected_blocks w srcs) = List.map EvRead paths /\
    paths `prefix_of` local_sources srcs.
Proof.
  unfold local_sources. induction srcs as [|s srcs (paths & IH1 & IH2)]; simpl.
  - by exists [].
  - unfold expected_block, reads_of at 1 2 3.
    destruct (is_url s) eqn:Hu; simpl.
    + exists paths.
      destruct (expected_blocks w srcs) as [[bs|e] evs]; by simpl in *.
    + destruct (open_rb_read w s) as [data|e0].
      * exists (s :: paths). split; [|by apply prefix_cons].
        destruct (expected_blocks w srcs) as [[bs|e] evs]; simpl in *;
          by rewrite IH1.
      * exists [s]. split; [done|]. apply prefix_cons, prefix_nil.
Qed.

(** X3.  Whatever the world and the arguments, an operation first reads
    and then calls: its trace is a run of file reads followed by at most
    one remote call, so there is no retry and no read after the call.
    [analyze_image_from_url] reads nothing and [analyze_image_from_file]
    reads at most its own path, once. *)
Theorem reads_then_at_most_one_call (w : world) :
  (forall image_url prompt detail,
     exists calls,
       trace_of (analyze_image_from_url w image_url prompt detail)
       = List.map EvCreate calls /\
       (length calls <= 1)%nat) /\
  (forall image_path prompt detail,
     exists paths calls,
       trace_of (analyze_image_from_file w image_path prompt detail)
       = List.map EvRead paths ++ List.map EvCreate calls /\
       paths `prefix_of` [image_path] /\
       (length calls <= 1)%nat) /\
  (forall image_sources prompt,
     exists paths calls,
       trace_of (analyze_multiple_images w image_sources prompt)
       = List.map EvRead paths ++ List.map EvCreate calls /\
       paths `prefix_of` local_sources image_sources /\
       (length calls <= 1)%nat).
Proof.
  split; [|split].
  - intros image_url prompt detail. unfold trace_of, run.
    destruct (url_cases w image_url prompt detail [])
      as (o & t' & -> & [[-> _] | (Hk & -> & _)]); simpl.
    + exists []. split; [reflexivity | simpl; lia].
    + eexists [_]. split; [reflexivity | simpl; lia].
  - intros image_path prompt detail. unfold trace_of, run.
    destruct (file_cases w image_path prompt detail [])
      as (o & t' & -> &
          [[-> _] | [(Hk & -> & _) | (Hk & data & Hdata & -> & _)]]);
      simpl.
    + exists [], []. split; [reflexivity|].
      split; [apply prefix_nil | simpl; lia].
    + exists [image_path], [].
      split; [reflexivity|]. split; [done | simpl; lia].
    + exists [image_path]. eexists [_].
      split; [reflexivity|]. split; [done | simpl; lia].
  - intros image_sources prompt. unfold trace_of, run.
    destruct (expected_blocks_reads w image_sources) as (paths & H1 & H2).
    destruct (multi_cases w image_sources prompt [])
      as (o & t' & -> &
          [[-> _] | [(Hk & e & evs & Hb & -> & _)
                    | (Hk & bs & evs & Hb & -> & _)]]);
      simpl.
    + exists [], []. split; [reflexivity|].
      split; [apply prefix_nil | simpl; lia].
    + rewrite Hb in H1. simpl in H1. subst evs.
      exists paths, []. rewrite app_nil_r.
      split; [reflexivity|]. split; [done | simpl; lia].
    + rewrite Hb in H1. simpl in H1. subst evs.
      exists paths. eexists [_].
      split; [reflexivity|]. split; [done | simpl; lia].
Qed.

(** X4.  With a credential, the client constructed and a console that
    prints, [analyze_multiple_images] over sources that all load reads exactly the sources that are not URLs, each once per
    occurrence and in the order of the list (nothing is cached and no URL
    is opened as a file), and then makes its one call. *)
Theorem multi_reads_local_sources_in_order
    (w : world) (image_sources : list string) (prompt : string) :
  has_key w -> client_ok w -> console_ok w ->
  Forall (loads w) image_sources ->
  reads_in (trace_of (analyze_multiple_images w image_sources prompt))
  = local_sources image_sources /\
  length (calls_in (trace_of (analyze_multiple_images w image_sources prompt)))
  = 1%nat.
Proof.
  intros Hk Hcl Hc Hall. unfold trace_of, run. rewrite run_multi by done.
  destruct (expected_blocks_loads w image_sources Hall) as [bs [-> _]].
  simpl. rewrite reads_of_local. split.
  - rewrite reads_in_app, reads_in_reads. simpl. by rewrite app_nil_r.
  - generalize (local_sources image_sources). intros l.
    induction l as [|p l IH]; simpl; [done | exact IH].
Qed.

Lemma multi_reads_local_sources_sample :
  reads_in (trace_of (analyze_multiple_images Sample.up
                        ["a.png"; "http://x/b.jpg"; "a.png"] "Compare"))
  = ["a.png"; "a.png"] /\
  length (calls_in (trace_of (analyze_multiple_images Sample.up
                                ["a.png"; "http://x/b.jpg"; "a.png"]
                                "Compare")))
  = 1%nat.
Proof.
  apply (multi_reads_local_sources_in_order Sample.up
           ["a.png"; "http://x/b.jpg"; "a.png"] "Compare");
    [reflexivity | reflexivity | intros line; reflexivity |].
  constructor; [right; by eexists|].
  constructor; [left; reflexivity|].
  constructor; [right; by eexists | constructor].
Defined.

(* ===================================================================== *)
(** ** Encoding a file *)
(* ===================================================================== *)

(** X1.  [encode_image_to_base64] makes exactly one read of its path,
    whatever the outcome.  It returns only when the read succeeded, and
    then the base64 text of the whole contents; a [FileNotFoundError] of
    the read is raised again with the message "Image file not found:
    <path>", and any other exception is replaced by a bare [Exception]
    whose message is "Error encoding image: " followed by the original
    message, so the original class never reaches the caller. *)
Theorem encode_image_to_base64_outcome
    (w : world) (image_path : string) (t : list event) :
  exists o,
    encode_image_to_base64 w image_path t = (o, t ++ [EvRead image_path]) /\
    match o with
    | Return text =>
        exists data,
          open_rb_read w image_path = Return data /\
          text = Base64.b64encode data
    | Raise e =>
        exists e0,
          open_rb_read w image_path = Raise e0 /\
          ((exn_cls e0 = FileNotFoundError /\
            e = mk_exn FileNotFoundError
                  ("Image file not found: " +:+ image_path)) \/
           (exn_cls e0 <> FileNotFoundError /\
            e = mk_exn PyException
                  ("Error encoding image: " +:+ exn_msg e0)))
    end.
Proof.
  rewrite encode_run. eexists. split; [reflexivity|].
  destruct (open_rb_read w image_path) as [data|e0].
  - by exists data.
  - exists e0. split; [reflexivity|]. unfold encode_error.
    destruct (exn_cls e0); auto; right; by split.
Qed.

(** X2.  The text returned by [encode_image_to_base64] determines the
    contents of the file: decoding it gives them back, so two files, in
    the same world or not, that yield the same text have the same
    contents. *)
Theorem encoded_text_determines_contents
    (w1 w2 : world) (path1 path2 text : string) (t1 t2 : list event) :
  fst (encode_image_to_base64 w1 path1 t1) = Return text ->
  fst (encode_image_to_base64 w2 path2 t2) = Return text ->
  exists data,
    Base64.b64decode text = Some data /\
    open_rb_read w1 path1 = Return data /\
    open_rb_read w2 path2 = Return data.
Proof.
  rewrite !encode_run. simpl.
  destruct (open_rb_read w1 path1) as [d1|e1]; [|discriminate].
  destruct (open_rb_read w2 path2) as [d2|e2]; [|discriminate].
  intros [= <-] [= H].
  exists d1. split; [apply b64decode_b64encode|]. split; [done|].
  f_equal. pose proof (b64decode_b64encode d2) as E.
  rewrite H, b64decode_b64encode in E. congruence.
Qed.

Lemma encoded_text_determines_contents_sample :
  exists data,
    Base64.b64decode "iVBORw==" = Some data /\
    open_rb_read Sample.up "a.png" = Return data /\
    open_rb_read Edge.locked "a.png" = Return data.
Proof.
  apply (encoded_text_determines_contents Sample.up Edge.locked
           "a.png" "a.png" "iVBORw==" [] [EvRead "locked.png"]);
    reflexivity.
Defined.

(** X5.  A read that fails for another reason than a missing file (a
    permission error, a directory, ...) is reported as well: with a
    credential, the client constructed and a console that prints,
    [analyze_image_from_file] returns the failure record with
    [error] "Error encoding image: " followed by the message of the read
    error, after that one read and without any remote call; so does
    [analyze_multiple_images] at the first such source, having read the
    local sources before it and none after it. *)
Theorem read_error_reported_without_call
    (w : world) (image_path : string) (e0 : exn) :
  has_key w -> client_ok w -> console_ok w ->
  open_rb_read w image_path = Raise e0 ->
  exn_cls e0 <> FileNotFoundError ->
  let failed : gmap string pyval :=
    {[ "success" := PyBool false;
       "error" := PyStr ("Error encoding image: " +:+ exn_msg e0) ]} in
  (forall prompt detail,
     run (analyze_image_from_file w image_path prompt detail)
     = (Return failed, [EvRead image_path])) /\
  (forall pre post prompt,
     Forall (loads w) pre -> is_url image_path = false ->
     run (analyze_multiple_images w (pre ++ image_path :: post) prompt)
     = (Return failed,
        List.map EvRead (local_sources pre ++ [image_path]))).
Proof.
  intros Hk Hcl Hc Hread Hcls failed.
  assert (Herr : encode_error image_path e0
                 = mk_exn PyException ("Error encoding image: " +:+ exn_msg e0)).
  { unfold encode_error. by destruct (exn_cls e0). }
  split.
  - intros prompt detail. unfold run. rewrite run_file by done.
    by rewrite Hread, Herr.
  - intros pre post prompt Hpre Hu. unfold run. rewrite run_multi by done.
    rewrite (expected_blocks_stops w pre post image_path
               (encode_error image_path e0) Hpre).
    + rewrite Herr, reads_of_local. unfold reads_of. rewrite Hu.
      by rewrite List.map_app.
    + unfold expected_block. by rewrite Hu, Hread.
Qed.

Lemma read_error_reported_sample :
  let failed : gmap string pyval :=
    {[ "success" := PyBool false;
       "error" := PyStr ("Error encoding image: [Errno 13] Permission denied: "
                         +:+ "'locked.png'") ]} in
  run (analyze_image_from_file Edge.locked "locked.png" "Describe" "auto")
  = (Return failed, [EvRead "locked.png"]) /\
  run (analyze_multiple_images Edge.locked
         (["a.png"; "http://x/b.jpg"] ++ "locked.png" :: ["a.png"]) "Compare")
  = (Return failed, [EvRead "a.png"; EvRead "locked.png"]).
Proof.
  destruct (read_error_reported_without_call Edge.locked "locked.png"
              Edge.permission_denied eq_refl eq_refl (fun _ => eq_refl)
              eq_refl) as [H1 H2];
    [discriminate|].
  split; [apply H1|].
  apply (H2 ["a.png"; "http://x/b.jpg"] ["a.png"] "Compare"); [|reflexivity].
  constructor; [right; by eexists|].
  constructor; [left; reflexivity | constructor].
Defined.

(* ===================================================================== *)
(** ** Normalising the response *)
(* ===================================================================== *)

(** X6.  A response with a first choice and with usage counters always
    gives a success record that echoes it: with a credential, the client
    constructed, a console that prints and a service answering [r], [analyze_image_from_url] (and
    [analyze_image_from_file] on a readable path) returns [success],
    [analysis], [model], [tokens_used], [prompt_tokens] and
    [completion_tokens] taken from [r], and [analyze_multiple_images] over
    sources that load returns [success], [analysis] and [tokens_used].
    A message content of [None] is passed on as [None]; the other choices
    are ignored. *)
Theorem well_formed_response_echoed
    (w : world) (r : response) (c : choice) (cs : list choice)
    (u : completion_usage) :
  has_key w -> client_ok w -> console_ok w -> service_answers w r ->
  choices r = c :: cs -> usage r = Some u ->
  let single : gmap string pyval :=
    {[ "success" := PyBool true;
       "analysis" := match message_content c with
                     | Some text => PyStr text
                     | None => PyNone
                     end;
       "model" := PyStr (response_model r);
       "tokens_used" := PyInt (total_tokens u);
       "prompt_tokens" := PyInt (prompt_tokens u);
       "completion_tokens" := PyInt (completion_tokens u) ]} in
  let multi : gmap string pyval :=
    {[ "success" := PyBool true;
       "analysis" := match message_content c with
                     | Some text => PyStr text
                     | None => PyNone
                     end;
       "tokens_used" := PyInt (total_tokens u) ]} in
  (forall image_url prompt detail,
     result_of (analyze_image_from_url w image_url prompt detail)
     = Return single) /\
  (forall image_path prompt detail,
     readable w image_path ->
     result_of (analyze_image_from_file w image_path prompt detail)
     = Return single) /\
  (forall image_sources prompt,
     Forall (loads w) image_sources ->
     result_of (analyze_multiple_images w image_sources prompt)
     = Return multi).
Proof.
  intros Hk Hcl Hco Hr Hc Hu single multi. unfold result_of, run.
  split; [|split].
  - intros image_url prompt detail. rewrite run_url by done.
    rewrite Hr. simpl. unfold single_record. by rewrite Hu, Hc.
  - intros image_path prompt detail [data Hdata]. rewrite run_file by done.
    rewrite Hdata. cbv zeta. rewrite Hr. simpl.
    unfold single_record. by rewrite Hu, Hc.
  - intros image_sources prompt Hall. rewrite run_multi by done.
    destruct (expected_blocks_loads w image_sources Hall) as [bs [-> _]].
    cbv beta iota zeta. rewrite Hr. simpl.
    unfold multi_record. by rewrite Hu, Hc.
Qed.

Lemma well_formed_response_echoed_sample :
  result_of (analyze_image_from_url Sample.up
               "http://x/img.jpg" "Describe" "high")
  = Return {[ "success" := PyBool true;
              "analysis" := PyStr "A boardwalk.";
              "model" := PyStr "gpt-4o-2024-08-06";
              "tokens_used" := PyInt 15;
              "prompt_tokens" := PyInt 10;
              "completion_tokens" := PyInt 5 ]} /\
  result_of (analyze_multiple_images Sample.up
               ["a.png"; "http://x/b.jpg"] "Compare")
  = Return {[ "success" := PyBool true;
              "analysis" := PyStr "A boardwalk.";
              "tokens_used" := PyInt 15 ]}.
Proof.
  destruct (well_formed_response_echoed Sample.up Sample.reply _ _ _
              eq_refl eq_refl (fun _ => eq_refl) (fun _ => eq_refl)
              eq_refl eq_refl) as (H1 & _ & H3).
  split; [apply H1|]. apply H3.
  constructor; [right; by eexists|].
  constructor; [left; reflexivity | constructor].
Defined.

(** X7.  With a credential, the client constructed and a console that
    prints, a response that lacks a part gives a failure record, never a
    partial success.  The single-image operations look at the usage
    counters first (when building the dump): without usage the error names
    the missing attribute [prompt_tokens], whatever the choices; with
    usage but no choice it is "list index out of range"
    ([analyze_image_from_file] on a readable path alike).
    [analyze_multiple_images] looks at the choices first: without a choice
    the error is "list index out of range", whatever the usage; with a
    choice but no usage it names the missing attribute [total_tokens]. *)
Theorem malformed_response_is_failure (w : world) (r : response) :
  has_key w -> client_ok w -> console_ok w -> service_answers w r ->
  let failed (msg : string) : gmap string pyval :=
    {[ "success" := PyBool false; "error" := PyStr msg ]} in
  (usage r = None ->
   forall image_url prompt detail,
     result_of (analyze_image_from_url w image_url prompt detail)
     = Return (failed "'NoneType' object has no attribute 'prompt_tokens'")) /\
  (usage r <> None -> choices r = [] ->
   forall image_url prompt detail,
     result_of (analyze_image_from_url w image_url prompt detail)
     = Return (failed "list index out of range")) /\
  (usage r = None ->
   forall image_path prompt detail,
     readable w image_path ->
     result_of (analyze_image_from_file w image_path prompt detail)
     = Return (failed "'NoneType' object has no attribute 'prompt_tokens'")) /\
  (usage r <> None -> choices r = [] ->
   forall image_path prompt detail,
     readable w image_path ->
     result_of (analyze_image_from_file w image_path prompt detail)
     = Return (failed "list index out of range")) /\
  (choices r = [] ->
   forall image_sources prompt,
     Forall (loads w) image_sources ->
     result_of (analyze_multiple_images w image_sources prompt)
     = Return (failed "list index out of range")) /\
  (choices r <> [] -> usage r = None ->
   forall image_sources prompt,
     Forall (loads w) image_sources ->
     result_of (analyze_multiple_images w image_sources prompt)
     = Return (failed "'NoneType' object has no attribute 'total_tokens'")).
Proof.
  intros Hk Hcl Hco Hr failed. unfold result_of, run.
  split; [|split; [|split; [|split; [|split]]]].
  - intros Hu image_url prompt detail. rewrite run_url by done.
    rewrite Hr. simpl. unfold single_record. by rewrite Hu.
  - intros Hu Hc image_url prompt detail. rewrite run_url by done.
    rewrite Hr. simpl. unfold single_record. rewrite Hc.
    by destruct (usage r).
  - intros Hu image_path prompt detail [data Hdata].
    rewrite run_file by done. rewrite Hdata. cbv zeta.
    rewrite Hr. simpl. unfold single_record. by rewrite Hu.
  - intros Hu Hc image_path prompt detail [data Hdata].
    rewrite run_file by done. rewrite Hdata. cbv zeta.
    rewrite Hr. simpl. unfold single_record. rewrite Hc.
    by destruct (usage r).
  - intros Hc image_sources prompt Hall. rewrite run_multi by done.
    destruct (expected_blocks_loads w image_sources Hall) as [bs [-> _]].
    cbv beta iota zeta. rewrite Hr. simpl. unfold multi_record. by rewrite Hc.
  - intros Hc Hu image_sources prompt Hall. rewrite run_multi by done.
    destruct (expected_blocks_loads w image_sources Hall) as [bs [-> _]].
    cbv beta iota zeta. rewrite Hr. simpl. unfold multi_record. rewrite Hu.
    by destruct (choices r).
Qed.

Lemma malformed_response_sample :
  result_of (analyze_image_from_url (Edge.answering Edge.empty_reply)
               "http://x/img.jpg" "Describe" "auto")
  = Return {[ "success" := PyBool false;
              "error" := PyStr "'NoneType' object has no attribute 'prompt_tokens'" ]} /\
  result_of (analyze_image_from_url (Edge.answering Edge.reply_without_choices)
               "http://x/img.jpg" "Describe" "auto")
  = Return {[ "success" := PyBool false;
              "error" := PyStr "list index out of range" ]} /\
  result_of (analyze_multiple_images (Edge.answering Edge.empty_reply)
               ["http://x/b.jpg"] "Compare")
  = Return {[ "success" := PyBool false;
              "error" := PyStr "list index out of range" ]} /\
  result_of (analyze_multiple_images (Edge.answering Edge.reply_without_usage)
               ["http://x/b.jpg"] "Compare")
  = Return {[ "success" := PyBool false;
              "error" := PyStr "'NoneType' object has no attribute 'total_tokens'" ]}.
Proof.
  assert (Hl : forall w, Forall (loads w) ["http://x/b.jpg"])
    by (intros w; constructor; [left; reflexivity | constructor]).
  destruct (malformed_response_is_failure (Edge.answering Edge.empty_reply)
              Edge.empty_reply eq_refl eq_refl (fun _ => eq_refl)
              (fun _ => eq_refl))
    as (H1 & _ & _ & _ & H3 & _).
  destruct (malformed_response_is_failure
              (Edge.answering Edge.reply_without_choices)
              Edge.reply_without_choices eq_refl eq_refl (fun _ => eq_refl)
              (fun _ => eq_refl))
    as (_ & H2 & _ & _ & _ & _).
  destruct (malformed_response_is_failure
              (Edge.answering Edge.reply_without_usage)
              Edge.reply_without_usage eq_refl eq_refl (fun _ => eq_refl)
              (fun _ => eq_refl))
    as (_ & _ & _ & _ & _ & H4).
  split; [apply H1; reflexivity|].
  split; [apply H2; [discriminate | reflexivity]|].
  split; [apply H3; [reflexivity | apply Hl]|].
  apply H4; [discriminate | reflexivity | apply Hl].
Defined.

(* ===================================================================== *)
(** ** The same image in a single-image and in a multi-image request *)
(* ===================================================================== *)

(** X8.  A single-image request describes its image as the multi-image
    request does, with the ["detail"] key added: for a URL the dict sent
    by [analyze_image_from_url] is the dict of the block that
    [analyze_multiple_images] builds for that URL plus ["detail"], and for
    a path that is not a URL the dict sent by [analyze_image_from_file] is
    the dict of the block built for that path plus ["detail"]. *)
Theorem single_image_dict_is_multi_dict_with_detail
    (w : world) (source prompt detail prompt' : string)
    (req_single req_multi : request) :
  EvCreate req_multi ∈ trace_of (analyze_multiple_images w [source] prompt') ->
  (if is_url source
   then EvCreate req_single
          ∈ trace_of (analyze_image_from_url w source prompt detail)
   else EvCreate req_single
          ∈ trace_of (analyze_image_from_file w source prompt detail)) ->
  exists d : gmap string string,
    messages req_multi
    = [ {| role := "user"; content := [Text prompt'; ImageUrl d] |} ] /\
    messages req_single
    = [ {| role := "user";
           content := [Text prompt;
                       ImageUrl (<[ "detail" := detail ]> d)] |} ].
Proof.
  intros Hm Hs. apply created_multi in Hm as [_ [bs [Hbs ->]]].
  apply Forall2_cons_inv_l in Hbs as (b & bs' & Hb & Hnil & ->).
  apply Forall2_nil_inv_l in Hnil as ->.
  unfold expected_block in Hb. destruct (is_url source).
  - injection Hb as <-. apply created_url in Hs as [_ ->].
    eexists. split; reflexivity.
  - apply created_file in Hs as [_ [data [Hdata ->]]].
    rewrite Hdata in Hb. injection Hb as <-.
    eexists. split; reflexivity.
Qed.

Lemma single_image_dict_sample :
  exists d : gmap string string,
    messages
      (user_request [Text "Compare"; inline_block "a.png" [x89; x50; x4e; x47]]
         1500)
    = [ {| role := "user"; content := [Text "Compare"; ImageUrl d] |} ] /\
    messages (file_request "a.png" "Describe" "low" [x89; x50; x4e; x47])
    = [ {| role := "user";
           content := [Text "Describe";
                       ImageUrl (<[ "detail" := "low" ]> d)] |} ].
Proof.
  apply (single_image_dict_is_multi_dict_with_detail Sample.up
           "a.png" "Describe" "low" "Compare").
  - vm_compute. apply list_elem_of_further, list_elem_of_here.
  - vm_compute. apply list_elem_of_further, list_elem_of_here.
Defined.

(* ===================================================================== *)
(** ** Edge cases of the media type *)
(* ===================================================================== *)

Lemma parts_trailing_slash (p : string) :
  PurePath.parts (p +:+ "/") = PurePath.parts p.
Proof.
  unfold PurePath.parts.
  change (p +:+ "/") with (p +:+ String "/" "").
  rewrite split_app, List.filter_app. simpl. apply app_nil_r.
Qed.

Lemma suffix_trailing_dot (s : string) :
  PyStr.contains "/" s = false -> PurePath.suffix (s +:+ ".") = "".
Proof.
  intros Hs. unfold PurePath.suffix.
  destruct (PurePath.keep_part (s +:+ ".")) eqn:Hkeep.
  - rewrite (name_of "" (s +:+ ".") (s +:+ "."));
      [|by rewrite contains_app, Hs|done|by left].
    change (s +:+ ".") with (s +:+ String "." "").
    rewrite rfind_last by done. unfold PyStr.len.
    rewrite length_app. simpl String.length.
    assert (E : (Z.of_nat (String.length s)
                 <? Z.of_nat (String.length s + 1) - 1) = false)
      by (apply Z.ltb_ge; lia).
    rewrite E. by rewrite andb_false_r.
  - unfold PurePath.name, PurePath.parts.
    rewrite split_absent by (by rewrite contains_app, Hs).
    simpl. by rewrite Hkeep.
Qed.

(** X9.  The media type looks at the final component of the path only and
    needs a stem before the dot: a trailing slash changes nothing, the
    directories of [dir/name], dotted or not, change nothing, a name
    that is a dot followed by letters ([.png], [.gitignore]) has no
    extension and gets [image/jpeg], and so does a name ending in a dot. *)
Theorem media_type_edge_cases :
  (forall p, mime_type_of (p +:+ "/") = mime_type_of p) /\
  (forall dir name,
     PyStr.contains "/" name = false -> PurePath.keep_part name = true ->
     mime_type_of (dir +:+ "/" +:+ name) = mime_type_of name) /\
  (forall e,
     PyStr.contains "/" e = false -> PyStr.contains "." e = false ->
     mime_type_of ("." +:+ e) = "image/jpeg") /\
  (forall s,
     PyStr.contains "/" s = false ->
     mime_type_of (s +:+ ".") = "image/jpeg").
Proof.
  split; [|split; [|split]].
  - intros p. unfold mime_type_of, PurePath.suffix, PurePath.name.
    by rewrite parts_trailing_slash.
  - intros dir name Hsep Hkeep.
    unfold mime_type_of, PurePath.suffix.
    rewrite (name_of dir name (dir +:+ "/" +:+ name)) by auto.
    by rewrite (name_of dir name name) by auto.
  - intros e Hsep Hdot. unfold mime_type_of, PurePath.suffix.
    destruct (PurePath.keep_part ("." +:+ e)) eqn:Hkeep.
    + rewrite (name_of "" ("." +:+ e) ("." +:+ e)); [|done|done|by left].
      change ("." +:+ e) with ("" +:+ String "." e).
      by rewrite rfind_last.
    + unfold PurePath.name, PurePath.parts.
      rewrite split_absent by done. simpl. by rewrite Hkeep.
  - intros s Hsep. unfold mime_type_of. by rewrite suffix_trailing_dot.
Qed.

Lemma media_type_edge_cases_sample :
  mime_type_of "shots.png/readme" = mime_type_of "readme" /\
  mime_type_of ".png" = "image/jpeg" /\
  mime_type_of "photo.png." = "image/jpeg".
Proof.
  destruct media_type_edge_cases as (_ & Hdir & Hdot & Hend).
  split; [apply (Hdir "shots.png" "readme"); reflexivity|].
  split; [apply (Hdot "png"); reflexivity|].
  apply (Hend "photo.png"). reflexivity.
Defined.

(* ===================================================================== *)
(** ** Exceptions that reach the caller *)
(* ===================================================================== *)

(** X10.  With a credential configured, an exception raised by
    [OpenAI(api_key=api_key)] reaches the caller of each of the three
    operations unchanged, and nothing has been read or sent: the
    constructor is called before the [try] block. *)
Theorem client_error_reaches_caller (w : world) (e : exn) :
  has_key w ->
  new_client w (getenv_OPENAI_API_KEY w) = Raise e ->
  (forall image_url prompt detail,
     run (analyze_image_from_url w image_url prompt detail) = (Raise e, [])) /\
  (forall image_path prompt detail,
     run (analyze_image_from_file w image_path prompt detail) = (Raise e, [])) /\
  (forall image_sources prompt,
     run (analyze_multiple_images w image_sources prompt) = (Raise e, [])).
Proof.
  unfold has_key. intros Hk He. unfold run. repeat split; intros.
  - unfold analyze_image_from_url. rewrite Hk, bind_run.
    unfold OpenAI at 1, lift at 1. by rewrite He.
  - unfold analyze_image_from_file. rewrite Hk, bind_run.
    unfold OpenAI at 1, lift at 1. by rewrite He.
  - unfold analyze_multiple_images. rewrite Hk, bind_run.
    unfold OpenAI at 1, lift at 1. by rewrite He.
Qed.

Lemma client_error_reaches_caller_sample :
  run (analyze_image_from_url Edge.no_client "http://x/img.jpg" "Describe" "auto")
  = (Raise Edge.client_error, []) /\
  run (analyze_image_from_file Edge.no_client "a.png" "Describe" "auto")
  = (Raise Edge.client_error, []) /\
  run (analyze_multiple_images Edge.no_client ["a.png"] "Compare")
  = (Raise Edge.client_error, []).
Proof.
  destruct (client_error_reaches_caller Edge.no_client Edge.client_error
              eq_refl eq_refl) as (H1 & H2 & H3).
  split; [apply H1|]. split; [apply H2 | apply H3].
Defined.



